(** * Student coach: the progress store (src/src/memory.py)

    A shallow embedding of [JsonMemory], the JSON-backed learner model of
    the quiz application, and the properties of its update and query
    operations.  It is followed by the code around the store: the handling
    of the replies of the language model (src/src/evaluation.py,
    src/src/quiz_engine.py) and the grading loops of the two front ends
    (src/src/main.py, src/app.py).

    Modelling conventions.
    - A persisted document is a JSON value.  Python's [dict] keeps
      insertion order and [questions.values()] exposes it, so objects are
      association lists in insertion order.
    - Python exceptions are explicit: operations that can raise return a
      [result].
    - The file behind [self.path] is the only state; every method is a
      function from the file to a result and a new file.
    - Python [float]s are idealised as exact rationals ([Q]).  Quotients of
      two integers are correctly rounded by Python, so comparing them with
      0.5 and 0.8 and rounding them to the nearest integer agrees with the
      exact computation as long as the integers stay far below 2^52.
    - Python [str] is modelled by [string]; characters are the code points
      0..255.
    - The clock ([datetime.utcnow]) is an input: every logging operation
      receives its timestamp. *)

From Stdlib Require Import ZArith QArith Qround List String Ascii Bool Lia Arith.
From Stdlib Require Import Sorted Permutation Lqa.
Import ListNotations.

Local Open Scope string_scope.
Local Open Scope Z_scope.

(** ** Python values as stored by [json] *)

#[local] Set Warnings "-register-all".

Inductive json : Type :=
| JNull
| JBool (b : bool)
| JInt (n : Z)
| JFloat (q : Q)
| JStr (s : string)
| JArr (l : list json)
| JObj (m : list (string * json)).

Inductive exn : Type :=
| FileNotFoundError
| JSONDecodeError
| AttributeError
| TypeError
| KeyError
| ValueError.

Inductive result (A : Type) : Type :=
| Ok (a : A)
| Raise (e : exn).

Arguments Ok {A} a.
Arguments Raise {A} e.

Definition bind {A B : Type} (r : result A) (k : A -> result B) : result B :=
  match r with
  | Ok a => k a
  | Raise e => Raise e
  end.

Notation "x <- r ;; k" := (bind r (fun x => k))
  (at level 61, r at next level, right associativity).

Definition is_ok {A : Type} (r : result A) : bool :=
  match r with Ok _ => true | Raise _ => false end.

(** ** Dictionaries in insertion order *)

Definition dict : Type := list (string * json).

Fixpoint dict_get (m : dict) (k : string) : option json :=
  match m with
  | [] => None
  | (k', v) :: m' => if String.eqb k' k then Some v else dict_get m' k
  end.

Definition dict_has (m : dict) (k : string) : bool :=
  match dict_get m k with Some _ => true | None => false end.

(** [m[k] = v]: an existing key keeps its position, a new key goes last. *)
Fixpoint dict_set (m : dict) (k : string) (v : json) : dict :=
  match m with
  | [] => [(k, v)]
  | (k', v') :: m' =>
      if String.eqb k' k then (k', v) :: m' else (k', v') :: dict_set m' k v
  end.

(** [m.setdefault(k, v)], for its effect on [m]. *)
Definition dict_setdefault (m : dict) (k : string) (v : json) : dict :=
  if dict_has m k then m else dict_set m k v.

(** [m.get(k, d)] *)
Definition dict_get_default (m : dict) (k : string) (d : json) : json :=
  match dict_get m k with Some v => v | None => d end.

Definition dict_values (m : dict) : list json := map snd m.

Definition isinstance_list (v : json) : bool :=
  match v with JArr _ => true | _ => false end.

Definition isinstance_dict (v : json) : bool :=
  match v with JObj _ => true | _ => false end.

(** [v.get(k, d)] on an arbitrary value: only dictionaries have [get]. *)
Definition py_get (v : json) (k : string) (d : json) : result json :=
  match v with
  | JObj m => Ok (dict_get_default m k d)
  | _ => Raise AttributeError
  end.

(** ** Python built-ins used by the store *)

(** Iterating a value: lists give their items, dictionaries their keys,
    strings their characters; anything else is not iterable. *)
Fixpoint chars (s : string) : list json :=
  match s with
  | EmptyString => []
  | String c s' => JStr (String c EmptyString) :: chars s'
  end.

Definition py_iter (v : json) : result (list json) :=
  match v with
  | JArr l => Ok l
  | JObj m => Ok (map (fun kv => JStr (fst kv)) m)
  | JStr s => Ok (chars s)
  | _ => Raise TypeError
  end.

(** [v == s] for a string [s]. *)
Definition py_eq_str (v : json) (s : string) : bool :=
  match v with
  | JStr s' => String.eqb s' s
  | _ => false
  end.

(** [v is True] *)
Definition is_True (v : json) : bool :=
  match v with
  | JBool true => true
  | _ => false
  end.

(** [bool(v)] *)
Definition py_truthy (v : json) : bool :=
  match v with
  | JNull => false
  | JBool b => b
  | JInt n => negb (n =? 0)
  | JFloat q => negb (Qeq_bool q 0%Q)
  | JStr s => negb (String.eqb s "")
  | JArr l => match l with [] => false | _ => true end
  | JObj m => match m with [] => false | _ => true end
  end.

(** [isinstance(v, int)]: [bool] is a subclass of [int]. *)
Definition isinstance_int (v : json) : bool :=
  match v with
  | JInt _ | JBool _ => true
  | _ => false
  end.

(** The integer behind a value for which [isinstance_int] holds. *)
Definition int_value (v : json) : Z :=
  match v with
  | JInt n => n
  | JBool true => 1
  | _ => 0
  end.

(** [isinstance(v, (int, float))] together with the number it denotes. *)
Definition number_value (v : json) : option Q :=
  match v with
  | JInt n => Some (inject_Z n)
  | JBool b => Some (inject_Z (if b then 1 else 0))
  | JFloat q => Some q
  | _ => None
  end.

(** Truncation towards zero, as [int(x)] does on a float. *)
Definition Qtruncate (q : Q) : Z :=
  if Qle_bool 0%Q q then Qfloor q else Qceiling q.

(** [round(x)] on a float: to the nearest integer, ties to the even one. *)
Definition py_round (q : Q) : Z :=
  let fl := Qfloor q in
  match Qcompare (q - inject_Z fl)%Q (1 # 2)%Q with
  | Lt => fl
  | Gt => fl + 1
  | Eq => if Z.even fl then fl else fl + 1
  end.

Definition Qltb (x y : Q) : bool := negb (Qle_bool y x).

Section Conversions.

(** [int(s)] and [float(s)] on strings are the interpreter's parsers; they
    are taken as they are. *)
Variable int_of_str : string -> option Z.
Variable float_of_str : string -> option Q.

(** [int(v)] *)
Definition py_int (v : json) : result Z :=
  match v with
  | JInt n => Ok n
  | JBool b => Ok (if b then 1 else 0)
  | JFloat q => Ok (Qtruncate q)
  | JStr s => match int_of_str s with Some n => Ok n | None => Raise ValueError end
  | JNull | JArr _ | JObj _ => Raise TypeError
  end.

(** [float(v)] *)
Definition py_float (v : json) : result Q :=
  match v with
  | JInt n => Ok (inject_Z n)
  | JBool b => Ok (inject_Z (if b then 1 else 0))
  | JFloat q => Ok q
  | JStr s => match float_of_str s with Some q => Ok q | None => Raise ValueError end
  | JNull | JArr _ | JObj _ => Raise TypeError
  end.

End Conversions.

(** A list comprehension [[val(x) for x in l if cond(x)]] whose condition
    and value may raise. *)
Fixpoint comprehension {A B : Type} (cond : A -> result bool) (val : A -> result B)
  (l : list A) : result (list B) :=
  match l with
  | [] => Ok []
  | x :: l' =>
      c <- cond x ;;
      if c then (v <- val x ;; r <- comprehension cond val l' ;; Ok (v :: r))
      else comprehension cond val l'
  end.

(** [l[:n]]: a negative bound counts from the end. *)
Definition slice_to {A : Type} (l : list A) (n : Z) : list A :=
  if 0 <=? n then firstn (Z.to_nat n) l
  else firstn (List.length l - Z.to_nat (- n)) l.

(** *** Strings: [strip], [split], [join], [lower] *)

Definition isspace (c : ascii) : bool :=
  let n := nat_of_ascii c in
  ((9 <=? n) && (n <=? 13) || (28 <=? n) && (n <=? 32)
   || (n =? 133) || (n =? 160))%nat.

Definition is_upper (c : ascii) : bool :=
  let n := nat_of_ascii c in
  ((65 <=? n) && (n <=? 90)
   || (192 <=? n) && (n <=? 222) && negb (n =? 215))%nat.

Definition lower_char (c : ascii) : ascii :=
  if is_upper c then ascii_of_nat (nat_of_ascii c + 32) else c.

Fixpoint lower (s : string) : string :=
  match s with
  | EmptyString => EmptyString
  | String c s' => String (lower_char c) (lower s')
  end.

Fixpoint lstrip (s : string) : string :=
  match s with
  | EmptyString => EmptyString
  | String c s' => if isspace c then lstrip s' else s
  end.

Fixpoint rstrip (s : string) : string :=
  match s with
  | EmptyString => EmptyString
  | String c s' =>
      match rstrip s' with
      | EmptyString => if isspace c then EmptyString else String c EmptyString
      | r => String c r
      end
  end.

Definition strip (s : string) : string := rstrip (lstrip s).

(** [s.split()]: the maximal runs of non-whitespace characters. *)
Fixpoint split (s : string) : list string :=
  match s with
  | EmptyString => []
  | String c s' =>
      if isspace c then split s'
      else
        match s' with
        | EmptyString => [String c EmptyString]
        | String d _ =>
            if isspace d then String c EmptyString :: split s'
            else
              match split s' with
              | w :: ws => String c w :: ws
              | [] => [String c EmptyString]
              end
        end
  end.

(** [sep.join(l)] *)
Fixpoint join (sep : string) (l : list string) : string :=
  match l with
  | [] => EmptyString
  | [w] => w
  | w :: l' => w ++ sep ++ join sep l'
  end.

(** *** [sorted(set(...))] on strings *)

Fixpoint set_insert (s : string) (l : list string) : list string :=
  match l with
  | [] => [s]
  | x :: l' =>
      match String.compare s x with
      | Lt => s :: l
      | Eq => l
      | Gt => x :: set_insert s l'
      end
  end.

Definition sorted_set (l : list string) : list string :=
  fold_right set_insert [] l.

(** [a.get(k)] on a record [a] that is known to be a dictionary. *)
Definition field (a : json) (k : string) : json :=
  match a with
  | JObj m => dict_get_default m k JNull
  | _ => JNull
  end.

(** ** The file behind the store *)

Inductive file : Type :=
| Missing                 (* the path does not exist *)
| Unparsable              (* empty or truncated text: json.loads raises *)
| Stored (v : json).      (* text that parses to [v] *)

(** Methods that write are computations over the file: they return a value
    or raise, and leave a file behind in either case. *)
Definition M (A : Type) : Type := file -> result A * file.

Definition ret {A : Type} (a : A) : M A := fun f => (Ok a, f).

Definition lift {A : Type} (r : result A) : M A := fun f => (r, f).

Definition bindM {A B : Type} (m : M A) (k : A -> M B) : M B :=
  fun f =>
    match m f with
    | (Ok a, f') => k a f'
    | (Raise e, f') => (Raise e, f')
    end.

Notation "x <~ m ;; k" := (bindM m (fun x => k))
  (at level 61, m at next level, right associativity).

(** [try: m except Exception: h]: the handler runs on the file as [m]
    left it. *)
Definition try_M {A : Type} (m h : M A) : M A :=
  fun f =>
    match m f with
    | (Ok a, f') => (Ok a, f')
    | (Raise _, f') => h f'
    end.

Module JsonMemory.

Definition canonical_empty : dict :=
  [("sessions", JArr []); ("attempts", JArr []); ("questions", JObj [])].

(** [self.path.exists()] *)
Definition path_exists : M bool :=
  fun f => (Ok (match f with Missing => false | _ => true end), f).

Definition _read : M json :=
  fun f =>
    match f with
    | Missing => (Raise FileNotFoundError, f)
    | Unparsable => (Raise JSONDecodeError, f)
    | Stored v => (Ok v, f)
    end.

Definition _write (data : json) : M unit := fun _ => (Ok tt, Stored data).

(** One repair step of the constructor:
    [if k not in data or not isinstance(data[k], T): data[k] = empty]. *)
Definition repair_key (k : string) (isinstance_T : json -> bool) (empty : json)
  (st : dict * bool) : dict * bool :=
  let '(data, changed) := st in
  match dict_get data k with
  | Some v => if isinstance_T v then (data, changed) else (dict_set data k empty, true)
  | None => (dict_set data k empty, true)
  end.

Definition __init__ : M unit :=
  present <~ path_exists ;;
  if negb present then _write (JObj canonical_empty)
  else
    data <~ try_M _read
              (_ <~ _write (JObj canonical_empty) ;; ret (JObj canonical_empty)) ;;
    let st :=
      match data with
      | JObj m => (m, false)
      | _ => (canonical_empty, true)
      end in
    let st := repair_key "sessions" isinstance_list (JArr []) st in
    let st := repair_key "attempts" isinstance_list (JArr []) st in
    let st := repair_key "questions" isinstance_dict (JObj []) st in
    let '(data, changed) := st in
    if changed then _write (JObj data) else ret tt.

Section Methods.

(** [hashlib.sha256(s.encode("utf-8")).hexdigest()], and the interpreter's
    parsers behind [int] and [float]. *)
Variable sha256_hexdigest : string -> string.
Variable int_of_str : string -> option Z.
Variable float_of_str : string -> option Q.

(** *** Session logging *)

Definition as_dict (v : json) : result dict :=
  match v with
  | JObj m => Ok m
  | _ => Raise AttributeError
  end.

(** The list behind [data[k].append(...)]. *)
Definition list_at (m : dict) (k : string) : result (list json) :=
  match dict_get m k with
  | Some (JArr l) => Ok l
  | Some _ => Raise AttributeError
  | None => Raise KeyError
  end.

(** The in-memory part of [log_session], between [_read] and [_write]. *)
Definition session_update (data : json) (ts topic : string) (score details : json)
  : result json :=
  data <- as_dict data ;;
  let data := dict_setdefault data "sessions" (JArr []) in
  sessions <- list_at data "sessions" ;;
  let entry :=
    JObj [("timestamp", JStr ts); ("topic", JStr topic);
          ("score", score); ("details", details)] in
  let data := dict_set data "sessions" (JArr (sessions ++ [entry])) in
  Ok (JObj data).

Definition log_session (ts topic : string) (score details : json) : M unit :=
  data <~ _read ;;
  data <~ lift (session_update data ts topic score details) ;;
  _write data.

(** *** Question attempts *)

Definition normalize (prompt : string) : string :=
  lower (join " " (split (strip prompt))).

Definition question_id (prompt : string) : string :=
  substring 0 16 (sha256_hexdigest (normalize prompt)).

Definition new_question (prompt : string) : dict :=
  [("prompt", JStr prompt); ("times_asked", JInt 0); ("last_answer", JNull);
   ("last_correct", JNull); ("last_timestamp", JNull); ("topics", JArr []);
   ("last_response_ms", JNull); ("avg_response_ms", JNull)].

(** [set(items)] for the topics of a question, as far as [sorted] accepts
    it once the string [topic] has been added: an item that is a list or a
    dictionary is unhashable, and any other item that is not a string
    cannot be ordered against [topic]; both are a [TypeError]. *)
Fixpoint topic_strings (items : list json) : result (list string) :=
  match items with
  | [] => Ok []
  | JStr s :: items' => r <- topic_strings items' ;; Ok (s :: r)
  | _ :: _ => Raise TypeError
  end.

(** The running average written by [log_attempt]. *)
Definition next_avg (prev_avg : json) (prev_n ms : Z) : Z :=
  match number_value prev_avg with
  | Some a =>
      if 0 <? prev_n
      then py_round ((a * inject_Z prev_n + inject_Z ms) / inject_Z (prev_n + 1))%Q
      else ms
  | None => ms
  end.

(** The entry appended to the ledger. *)
Definition make_attempt_entry (ts topic qid prompt student_answer : string)
  (correct response_ms : json) : result dict :=
  let attempt_entry :=
    [("timestamp", JStr ts); ("topic", JStr topic); ("question_id", JStr qid);
     ("prompt", JStr prompt); ("student_answer", JStr student_answer);
     ("correct", correct)] in
  match response_ms with
  | JNull => Ok attempt_entry
  | _ => ms <- py_int int_of_str response_ms ;;
         Ok (dict_set attempt_entry "response_ms" (JInt ms))
  end.

(** The update of the question aggregate [qrec]. *)
Definition update_question (qrec : json) (ts topic student_answer : string)
  (correct response_ms : json) : result dict :=
  times_asked <- py_get qrec "times_asked" (JInt 0) ;;
  prev_n <- py_int int_of_str times_asked ;;
  qrec <- as_dict qrec ;;
  let qrec := dict_set qrec "times_asked" (JInt (prev_n + 1)) in
  let qrec := dict_set qrec "last_answer" (JStr student_answer) in
  let qrec := dict_set qrec "last_correct" (JBool (py_truthy correct)) in
  let qrec := dict_set qrec "last_timestamp" (JStr ts) in
  items <- py_iter (dict_get_default qrec "topics" (JArr [])) ;;
  topics <- topic_strings items ;;
  let qrec := dict_set qrec "topics" (JArr (map JStr (sorted_set (topic :: topics)))) in
  match response_ms with
  | JNull => Ok qrec
  | _ =>
      ms <- py_int int_of_str response_ms ;;
      let qrec := dict_set qrec "last_response_ms" (JInt ms) in
      let prev_avg := dict_get_default qrec "avg_response_ms" JNull in
      Ok (dict_set qrec "avg_response_ms" (JInt (next_avg prev_avg prev_n ms)))
  end.

(** The in-memory part of [log_attempt], between [_read] and [_write]. *)
Definition attempt_update (data : json) (ts topic prompt student_answer : string)
  (correct response_ms : json) : result json :=
  data <- as_dict data ;;
  let data := dict_setdefault data "attempts" (JArr []) in
  let data := dict_setdefault data "questions" (JObj []) in
  let qid := question_id prompt in
  attempt_entry <-
    make_attempt_entry ts topic qid prompt student_answer correct response_ms ;;
  attempts <- list_at data "attempts" ;;
  let data := dict_set data "attempts" (JArr (attempts ++ [JObj attempt_entry])) in
  questions <- match dict_get data "questions" with
               | Some v => as_dict v
               | None => Raise KeyError
               end ;;
  let qrec := dict_get_default questions qid (JObj (new_question prompt)) in
  qrec <- update_question qrec ts topic student_answer correct response_ms ;;
  let questions := dict_set questions qid (JObj qrec) in
  let data := dict_set data "questions" (JObj questions) in
  Ok (JObj data).

Definition log_attempt (ts topic prompt student_answer : string)
  (correct response_ms : json) : M unit :=
  data <~ _read ;;
  data <~ lift (attempt_update data ts topic prompt student_answer
                  correct response_ms) ;;
  _write data.

(** *** Excluded prompts *)

Definition topic_match (topic : option string) (rec : json) : result bool :=
  match topic with
  | None => Ok true
  | Some t =>
      rec_topics <- py_get rec "topics" (JArr []) ;;
      match rec_topics with
      | JArr l => Ok (existsb (fun x => py_eq_str x t) l)
      | _ => Ok false
      end
  end.

Definition dict_values_of (v : json) : result (list json) :=
  match v with
  | JObj m => Ok (dict_values m)
  | _ => Raise AttributeError
  end.

Definition excluded_prompts_of (data : json) (mode : string) (topic : option string)
  : result (list json) :=
  questions <- py_get data "questions" (JObj []) ;;
  recs <- dict_values_of questions ;;
  if String.eqb mode "correct" then
    comprehension
      (fun rec =>
         last_correct <- py_get rec "last_correct" JNull ;;
         if is_True last_correct then topic_match topic rec else Ok false)
      (fun rec => py_get rec "prompt" (JStr ""))
      recs
  else
    comprehension (topic_match topic) (fun rec => py_get rec "prompt" (JStr "")) recs.

Definition get_excluded_prompts (mode : string) (topic : option string)
  : M (list json) :=
  data <~ _read ;;
  lift (excluded_prompts_of data mode topic).

(** *** Adaptive difficulty *)

(** [[a for a in data.get(k, []) if a.get("topic") == topic]] *)
Definition entries_for_topic (data : json) (k topic : string) : result (list json) :=
  raw <- py_get data k (JArr []) ;;
  items <- py_iter raw ;;
  comprehension
    (fun a => t <- py_get a "topic" JNull ;; Ok (py_eq_str t topic))
    (fun a => Ok a)
    items.

(** [sum(1 for a in attempts if a.get("correct") is True)]; the attempts
    have passed the filter on their topic and are dictionaries. *)
Definition count_correct (attempts : list json) : Z :=
  Z.of_nat (List.length (filter (fun a => is_True (field a "correct")) attempts)).

(** The loop collecting [ratios]; a score that [float] rejects is skipped. *)
Fixpoint session_ratios (sessions : list json) : list Q :=
  match sessions with
  | [] => []
  | s :: rest =>
      match (score <- py_get s "score" (JFloat 0%Q) ;;
             x <- py_float float_of_str score ;; Ok (x / 100)%Q) with
      | Ok r => r :: session_ratios rest
      | Raise _ => session_ratios rest
      end
  end.

Definition Qsum (l : list Q) : Q := fold_left Qplus l 0%Q.

Definition topic_accuracy_of (data : json) (topic : string) (default : Q) : result Q :=
  attempts <- entries_for_topic data "attempts" topic ;;
  match attempts with
  | _ :: _ =>
      let total := Z.of_nat (List.length attempts) in
      let correct := count_correct attempts in
      Ok (if total =? 0 then default else (inject_Z correct / inject_Z total)%Q)
  | [] =>
      sessions <- entries_for_topic data "sessions" topic ;;
      match session_ratios sessions with
      | (_ :: _) as ratios =>
          Ok (Qsum ratios / inject_Z (Z.of_nat (List.length ratios)))%Q
      | [] => Ok default
      end
  end.

Definition get_topic_accuracy (topic : string) (default : Q) : M Q :=
  data <~ _read ;;
  lift (topic_accuracy_of data topic default).

Definition get_adaptive_difficulty (topic : string) : M string :=
  acc <~ get_topic_accuracy topic (7 # 10) ;;
  if Qltb acc (5 # 10) then ret "easy"
  else if Qltb acc (8 # 10) then ret "medium"
  else ret "hard".

(** *** Frequently missed questions *)

(** The per-question counters kept in [stats]. *)
Record stat : Type := mk_stat {
  st_prompt : json;
  st_attempts : Z;
  st_correct : Z;
  st_incorrect : Z;
  st_sum_ms : Z;
  st_ms_count : Z
}.

(** One returned item. *)
Record missed : Type := mk_missed {
  prompt : json;
  attempts : Z;
  correct : Z;
  incorrect : Z;
  error_rate : Q;
  avg_response_ms : option Z
}.

(** Keys of [stats] are the truthy, hashable values of ["question_id"];
    Python compares them with [==], under which [True], [1] and [1.0] are
    one key. *)
Definition key_eqb (a b : json) : bool :=
  match a, b with
  | JStr s, JStr t => String.eqb s t
  | _, _ =>
      match number_value a, number_value b with
      | Some x, Some y => Qeq_bool x y
      | _, _ => false
      end
  end.

Definition hashable (v : json) : bool :=
  match v with
  | JArr _ | JObj _ => false
  | _ => true
  end.

(** The body of the loop once [st] is at hand. *)
Definition count_attempt (a : dict) (st : stat) : stat :=
  let is_correct := is_True (dict_get_default a "correct" JNull) in
  let ms := dict_get_default a "response_ms" JNull in
  let timed := isinstance_int ms in
  mk_stat (st_prompt st)
          (st_attempts st + 1)
          (if is_correct then st_correct st + 1 else st_correct st)
          (if is_correct then st_incorrect st else st_incorrect st + 1)
          (if timed then st_sum_ms st + int_value ms else st_sum_ms st)
          (if timed then st_ms_count st + 1 else st_ms_count st).

(** [stats.setdefault(qid, fresh)] followed by the updates of [count_attempt]. *)
Fixpoint stats_update (stats : list (json * stat)) (qid : json) (a : dict)
  : list (json * stat) :=
  match stats with
  | [] =>
      [(qid, count_attempt a
               (mk_stat (dict_get_default a "prompt" (JStr "")) 0 0 0 0 0))]
  | (k, st) :: stats' =>
      if key_eqb k qid then (k, count_attempt a st) :: stats'
      else (k, st) :: stats_update stats' qid a
  end.

Fixpoint collect_stats (attempts : list json) (stats : list (json * stat))
  : result (list (json * stat)) :=
  match attempts with
  | [] => Ok stats
  | a :: rest =>
      a <- as_dict a ;;
      let qid := dict_get_default a "question_id" JNull in
      if negb (py_truthy qid) then collect_stats rest stats
      else if negb (hashable qid) then Raise TypeError
      else collect_stats rest (stats_update stats qid a)
  end.

Definition make_item (st : stat) : missed :=
  mk_missed (st_prompt st) (st_attempts st) (st_correct st) (st_incorrect st)
    (inject_Z (st_incorrect st) / inject_Z (st_attempts st))%Q
    (if 0 <? st_ms_count st
     then Some (py_round (inject_Z (st_sum_ms st) / inject_Z (st_ms_count st))%Q)
     else None).

Fixpoint make_items (stats : list (json * stat)) (min_attempts : Z) : list missed :=
  match stats with
  | [] => []
  | (_, st) :: stats' =>
      if (st_attempts st <? min_attempts) || (st_incorrect st =? 0)
      then make_items stats' min_attempts
      else make_item st :: make_items stats' min_attempts
  end.

(** The sort key [(error_rate, attempts, avg_response_ms or 0)] and the
    order of Python tuples on it. *)
Definition avg_or_0 (x : missed) : Z :=
  match avg_response_ms x with
  | Some ms => if ms =? 0 then 0 else ms
  | None => 0
  end.

Definition key_compare (x y : missed) : comparison :=
  match Qcompare (error_rate x) (error_rate y) with
  | Eq =>
      match Z.compare (attempts x) (attempts y) with
      | Eq => Z.compare (avg_or_0 x) (avg_or_0 y)
      | c => c
      end
  | c => c
  end.

(** [items.sort(key=..., reverse=True)].  The sort is stable, also when
    reversed, so its result is the one of a stable insertion sort into
    descending order: an item goes in front of the first item whose key is
    not greater than its own. *)
Fixpoint insert_desc (x : missed) (l : list missed) : list missed :=
  match l with
  | [] => [x]
  | y :: l' =>
      match key_compare x y with
      | Lt => y :: insert_desc x l'
      | _ => x :: l
      end
  end.

Definition sort_desc (l : list missed) : list missed :=
  fold_right insert_desc [] l.

Definition frequently_missed_of (data : json) (topic : string)
  (min_attempts limit : Z) : result (list missed) :=
  attempts <- entries_for_topic data "attempts" topic ;;
  match attempts with
  | [] => Ok []
  | _ :: _ =>
      stats <- collect_stats attempts [] ;;
      let items := make_items stats min_attempts in
      Ok (slice_to (sort_desc items) limit)
  end.

Definition get_frequently_missed (topic : string) (min_attempts limit : Z)
  : M (list missed) :=
  data <~ _read ;;
  lift (frequently_missed_of data topic min_attempts limit).

End Methods.

End JsonMemory.

(** * Replies of the language model (src/src/evaluation.py and
      src/src/quiz_engine.py)

    Both modules parse the reply of the model with the same
    [_safe_json_loads] and validate it against a schema; a reply that
    fails either step is replaced by a fixed value.  The call of the model
    is outside the embedding: the functions below start from the text of
    its reply.  [json.loads] is taken as it is, [None] standing for
    [JSONDecodeError]. *)

(** [s.find(c)] and [s.rfind(c)] for a single character: the index of
    the first and of the last occurrence, or -1. *)
Fixpoint find_from (c : ascii) (s : string) (i : Z) : Z :=
  match s with
  | EmptyString => -1
  | String d s' => if Ascii.eqb d c then i else find_from c s' (i + 1)
  end.

Definition find (c : ascii) (s : string) : Z := find_from c s 0.

Fixpoint rfind_from (c : ascii) (s : string) (i last : Z) : Z :=
  match s with
  | EmptyString => last
  | String d s' => rfind_from c s' (i + 1) (if Ascii.eqb d c then i else last)
  end.

Definition rfind (c : ascii) (s : string) : Z := rfind_from c s 0 (-1).

(** [s[a:b]] for [0 <= a <= b]. *)
Definition slice (s : string) (a b : Z) : string :=
  substring (Z.to_nat a) (Z.to_nat (b - a)) s.

Section Replies.

Variable json_loads : string -> option json.

Definition _safe_json_loads (payload : string) : result json :=
  match json_loads payload with
  | Some v => Ok v
  | None =>
      let start := find "{" payload in
      let end_ := rfind "}" payload in
      if (0 <=? start) && (start <? end_) then
        match json_loads (slice payload start (end_ + 1)) with
        | Some v => Ok v
        | None => Raise JSONDecodeError
        end
      else Raise JSONDecodeError
  end.

(** *** Grades (evaluation.py) *)

Definition isinstance_bool (v : json) : bool :=
  match v with JBool _ => true | _ => false end.

Definition isinstance_str (v : json) : bool :=
  match v with JStr _ => true | _ => false end.

(** ["k" not in obj or not isinstance(obj["k"], T)] on a dictionary. *)
Definition missing_or_not (obj : dict) (k : string) (isinstance_T : json -> bool)
  : bool :=
  match dict_get obj k with
  | None => true
  | Some v => negb (isinstance_T v)
  end.

Definition _validate_grade_schema (obj : json) : result json :=
  match obj with
  | JObj m =>
      if missing_or_not m "correct" isinstance_bool then Raise ValueError
      else if missing_or_not m "feedback" isinstance_str then Raise ValueError
      else Ok obj
  | _ => Raise ValueError
  end.

Definition grade_fallback : json :=
  JObj [("correct", JBool false);
        ("feedback", JStr "Could not parse grading response as JSON.")].

(** [grade_answer] from the reply on: lines 58 to 62. *)
Definition grade_reply (content : string) : json :=
  match (data <- _safe_json_loads content ;; _validate_grade_schema data) with
  | Ok v => v
  | Raise _ => grade_fallback
  end.

(** *** Quizzes (quiz_engine.py) *)

(** [x in ("mcq", "short")] *)
Definition is_quiz_type (x : json) : bool :=
  py_eq_str x "mcq" || py_eq_str x "short".

(** [not isinstance(v, str) or not v.strip()] *)
Definition blank_or_not_str (v : json) : bool :=
  match v with
  | JStr s => String.eqb (strip s) ""
  | _ => true
  end.

(** The body of the loop over [obj["questions"]].  Where [q["type"]] is
    read the key is present: [q.get("type")] has just been found to be one
    of two strings. *)
Definition validate_question (q : json) : result unit :=
  match q with
  | JObj m =>
      if negb (is_quiz_type (dict_get_default m "type" JNull)) then Raise ValueError
      else if match dict_get m "prompt" with
              | None => true
              | Some v => blank_or_not_str v
              end then Raise ValueError
      else if py_eq_str (dict_get_default m "type" JNull) "mcq"
              && match dict_get_default m "options" JNull with
                 | JArr opts => negb (Nat.eqb (List.length opts) 4)
                 | _ => true
                 end then Raise ValueError
      else if match dict_get m "answer" with
              | None => true
              | Some v => blank_or_not_str v
              end then Raise ValueError
      else Ok tt
  | _ => Raise ValueError
  end.

Fixpoint validate_questions (qs : list json) : result unit :=
  match qs with
  | [] => Ok tt
  | q :: rest => _ <- validate_question q ;; validate_questions rest
  end.

Definition _validate_quiz_schema (obj : json) : result json :=
  match obj with
  | JObj m =>
      match dict_get m "questions" with
      | Some (JArr qs) => _ <- validate_questions qs ;; Ok obj
      | _ => Raise ValueError
      end
  | _ => Raise ValueError
  end.

Definition quiz_fallback : json := JObj [("questions", JArr [])].

(** [generate_quiz] from the reply on: lines 130 to 134. *)
Definition quiz_reply (content : string) : json :=
  match (data <- _safe_json_loads content ;; _validate_quiz_schema data) with
  | Ok v => v
  | Raise _ => quiz_fallback
  end.

(** What the callers take from the quiz:
    [quiz.get("questions", []) if isinstance(quiz, dict) else []]. *)
Definition questions_of_quiz (quiz : json) : json :=
  match quiz with
  | JObj m => dict_get_default m "questions" (JArr [])
  | _ => JArr []
  end.

End Replies.

(** *** The list of prompts to avoid (quiz_engine.py, lines 94 to 101) *)

Definition nl : string := String "010"%char EmptyString.

Definition avoidance_instructions (excluded_prompts : option (list string)) : string :=
  match excluded_prompts with
  | None | Some [] => ""
  | Some l =>
      let avoided := join nl (map (fun p => "- " ++ p) (firstn 50 l)) in
      nl ++ "Do NOT repeat any of the following previously asked prompts. "
         ++ "If a prompt is similar, create a clearly different question." ++ nl
         ++ "Avoid these prompts:" ++ nl ++ avoided ++ nl
  end.

(** * The quiz loops (src/src/main.py and src/app.py)

    The loops of the two front ends grade each answer, log it and count
    the correct ones.  What they read from outside is given as data: the
    prompt of the question, the answer typed, the time taken, the reply of
    the grading model and the clock at the moment of logging.  Printing is
    left out. *)

Module QuizLoop.

Section Loop.

Variable sha256_hexdigest : string -> string.
Variable int_of_str : string -> option Z.
Variable json_loads : string -> option json.

Record turn : Type := mk_turn {
  t_prompt : string;
  t_answer : string;
  t_took_ms : Z;
  t_reply : string;
  t_ts : string
}.

(** The body of the grading loops of main.py (lines 100 to 111 and 134 to
    144): grade, log, count. *)
Definition grade_turn (topic : string) (t : turn) (correct_count : Z) : M Z :=
  let result := grade_reply json_loads (t_reply t) in
  got <~ lift (py_get result "correct" JNull) ;;
  let is_correct := py_truthy got in
  _ <~ JsonMemory.log_attempt sha256_hexdigest int_of_str (t_ts t) topic
         (t_prompt t) (t_answer t) (JBool is_correct) (JInt (t_took_ms t)) ;;
  ret (if is_correct then correct_count + 1 else correct_count).

Fixpoint quiz_loop (topic : string) (turns : list turn) (correct_count : Z) : M Z :=
  match turns with
  | [] => ret correct_count
  | t :: rest =>
      correct_count <~ grade_turn topic t correct_count ;;
      quiz_loop topic rest correct_count
  end.


(** [percent = (100 * correct_count / total) if total else 0.0] *)
Definition percent (correct_count : Z) (total : nat) : Q :=
  match total with
  | O => 0
  | _ => inject_Z (100 * correct_count) / inject_Z (Z.of_nat total)
  end.

(** The qualitative summary: which of the three lines is shown. *)
Inductive summary_line : Type :=
| NeedsRevision
| FairProgress
| GoodProgress.

Definition summary (percent : Q) : summary_line :=
  if Qltb percent 50 then NeedsRevision
  else if Qltb percent 80 then FairProgress
  else GoodProgress.

End Loop.

End QuizLoop.

(** * Vocabulary of the properties *)

Import JsonMemory.

Local Open Scope list_scope.

(** What the persisted file holds under a top-level key, when it is a
    dictionary at all. *)
Definition stored_key (f : file) (k : string) : option json :=
  match f with
  | Stored (JObj m) => dict_get m k
  | _ => None
  end.

(** The value a top-level key must have after the repair. *)
Definition repaired (isinstance_T : json -> bool) (empty : json) (old : option json)
  : json :=
  match old with
  | Some v => if isinstance_T v then v else empty
  | None => empty
  end.

Definition after_repair (f : file) (k : string) : option json :=
  if String.eqb k "sessions"
  then Some (repaired isinstance_list (JArr []) (stored_key f k))
  else if String.eqb k "attempts"
  then Some (repaired isinstance_list (JArr []) (stored_key f k))
  else if String.eqb k "questions"
  then Some (repaired isinstance_dict (JObj []) (stored_key f k))
  else stored_key f k.

(** The two filters of [get_excluded_prompts] and the value it collects. *)
Definition correct_cond (topic : option string) (rec : json) : result bool :=
  last_correct <- py_get rec "last_correct" JNull ;;
  if is_True last_correct then topic_match topic rec else Ok false.

Definition prompt_of (rec : json) : result json := py_get rec "prompt" (JStr "").

(** The ledger of a file: the attempt records it holds. *)
Definition attempts_of (f : file) : list json :=
  match stored_key f "attempts" with
  | Some (JArr l) => l
  | _ => []
  end.

(** The aggregate stored for a question identifier. *)
Definition question_record (f : file) (qid : string) : option json :=
  match stored_key f "questions" with
  | Some (JObj qs) => dict_get qs qid
  | _ => None
  end.

(** Stand-ins for the interpreter's functions, for running the model on
    concrete inputs: a digest that returns its input, and parsers of plain
    decimal digits. *)
Definition example_digest (s : string) : string := s.

Fixpoint digits_value (s : string) (acc : Z) : option Z :=
  match s with
  | EmptyString => Some acc
  | String c s' =>
      let n := nat_of_ascii c in
      if ((48 <=? n) && (n <=? 57))%nat
      then digits_value s' (10 * acc + Z.of_nat (n - 48))
      else None
  end.

Definition example_int_of_str (s : string) : option Z :=
  match s with
  | EmptyString => None
  | _ => digits_value s 0
  end.

Definition example_float_of_str (s : string) : option Q :=
  option_map inject_Z (example_int_of_str s).





(** The aggregate [log_attempt] starts from: the stored one, or a fresh one. *)
Definition aggregate_before (f : file) (qid prompt : string) : json :=
  match question_record f qid with
  | Some v => v
  | None => JObj (new_question prompt)
  end.


Definition avg_of (q : dict) : json := dict_get_default q "avg_response_ms" JNull.

(** A sequence of [log_attempt] calls on one prompt. *)
Record call : Type := mk_call {
  c_ts : string;
  c_topic : string;
  c_answer : string;
  c_correct : json;
  c_response_ms : json
}.

Fixpoint log_attempts (sha256_hexdigest : string -> string)
  (int_of_str : string -> option Z) (prompt : string) (calls : list call) : M unit :=
  match calls with
  | [] => ret tt
  | c :: rest =>
      _ <~ log_attempt sha256_hexdigest int_of_str (c_ts c) (c_topic c) prompt
             (c_answer c) (c_correct c) (c_response_ms c) ;;
      log_attempts sha256_hexdigest int_of_str prompt rest
  end.

(** The response time a call supplies, in integer milliseconds. *)
Definition response_value (int_of_str : string -> option Z) (r : json) : option Z :=
  match r with
  | JNull => None
  | _ => match py_int int_of_str r with Ok ms => Some ms | Raise _ => None end
  end.

Definition responses (int_of_str : string -> option Z) (calls : list call)
  : list (option Z) :=
  map (fun c => response_value int_of_str (c_response_ms c)) calls.

Fixpoint supplied (rs : list (option Z)) : list Z :=
  match rs with
  | [] => []
  | Some ms :: rest => ms :: supplied rest
  | None :: rest => supplied rest
  end.


Definition Zsum (l : list Z) : Z := fold_right Z.add 0 l.

(** The arithmetic mean of the specification. *)
Definition mean (l : list Z) : Q :=
  (inject_Z (Zsum l) / inject_Z (Z.of_nat (List.length l)))%Q.



(** Concrete inputs on which the model is run below. *)
Definition example_prompt : string := "What is entropy?".

Definition example_call (correct : bool) (response_ms : json) : call :=
  mk_call "2024-05-01T10:00:00Z" "Thermo" "an answer" (JBool correct) response_ms.

Definition empty_store : file := Stored (JObj canonical_empty).

Definition example_log (calls : list call) : M unit :=
  log_attempts example_digest example_int_of_str example_prompt calls.

Definition example_qid : string := question_id example_digest example_prompt.

(** *** Adaptive difficulty, in the words of the specification *)

Definition for_topic (topic : string) (l : list json) : list json :=
  filter (fun a => py_eq_str (field a "topic") topic) l.

Definition is_correct (a : json) : bool := is_True (field a "correct").

Definition sessions_of (f : file) : list json :=
  match stored_key f "sessions" with
  | Some (JArr l) => l
  | _ => []
  end.

(** The score of a session record, a number. *)
Definition score_of (s : json) : Q :=
  match field s "score" with
  | JInt n => inject_Z n
  | JFloat q => q
  | _ => 0
  end.




Definition spec_accuracy (topic : string) (attempts sessions : list json) : Q :=
  match for_topic topic attempts with
  | (_ :: _) as A =>
      (inject_Z (Z.of_nat (List.length (filter is_correct A)))
       / inject_Z (Z.of_nat (List.length A)))%Q
  | [] =>
      match for_topic topic sessions with
      | (_ :: _) as S =>
          (Qsum (map (fun s => score_of s / 100) S)
           / inject_Z (Z.of_nat (List.length S)))%Q
      | [] => (7 # 10)%Q
      end
  end.


(** Stores built by the store's own methods, for the examples. *)
Definition store_after (calls : list call) : file :=
  snd (example_log calls empty_store).

Definition three_of_ten : list call :=
  [example_call true JNull; example_call true JNull; example_call true JNull;
   example_call false JNull; example_call false JNull; example_call false JNull;
   example_call false JNull; example_call false JNull; example_call false JNull;
   example_call false JNull].

Definition three_of_five : list call :=
  [example_call true JNull; example_call true JNull; example_call true JNull;
   example_call false JNull; example_call false JNull].

Definition four_of_five : list call :=
  [example_call true JNull; example_call true JNull; example_call true JNull;
   example_call true JNull; example_call false JNull].

Definition two_sessions : file :=
  snd ((_ <~ log_session "2024-05-01T10:00:00Z" "Optics" (JInt 90) (JObj []) ;;
        log_session "2024-05-02T10:00:00Z" "Optics" (JFloat (100 # 1)) (JObj []))
         empty_store).

(** *** Frequently missed questions, in the words of the specification *)

Definition avg_or_zero (r : missed) : Z :=
  match avg_response_ms r with
  | Some ms => ms
  | None => 0
  end.

(** [x] is not behind [y] in the descending lexicographic order of
    (error rate, attempts, average response time or 0). *)
Definition triple_ge (x y : missed) : Prop :=
  (error_rate y < error_rate x)%Q \/
  ((error_rate x == error_rate y)%Q /\
   (attempts y < attempts x \/
    (attempts x = attempts y /\ avg_or_zero y <= avg_or_zero x))).

Definition qid_of (a : json) : json := field a "question_id".

(** The attempt [a] is counted under the key [k] of [stats]. *)
Definition same_question (k : json) (a : json) : bool :=
  py_truthy (qid_of a) && key_eqb k (qid_of a).

Definition count_if (P : json -> bool) (l : list json) : Z :=
  Z.of_nat (List.length (filter P l)).



(** What [stats] holds once the attempts [done] have been counted: every
    entry has the counts of its question over [done], no two keys are
    equal, and every counted attempt has its key. *)
Definition stat_counts (done : list json) (e : json * stat) : Prop :=
  py_truthy (fst e) = true /\
  hashable (fst e) = true /\
  st_attempts (snd e) = count_if (same_question (fst e)) done /\
  st_correct (snd e)
    = count_if (fun a => same_question (fst e) a && is_correct a) done /\
  st_incorrect (snd e)
    = count_if (fun a => same_question (fst e) a && negb (is_correct a)) done.

Fixpoint distinct_keys (keys : list json) : Prop :=
  match keys with
  | [] => True
  | k :: rest => Forall (fun k' => key_eqb k k' = false) rest /\ distinct_keys rest
  end.

Definition covered (keys : list json) (a : json) : Prop :=
  py_truthy (qid_of a) = true ->
  Exists (fun k => key_eqb k (qid_of a) = true) keys.

Definition stats_inv (done : list json) (stats : list (json * stat)) : Prop :=
  Forall (stat_counts done) stats /\
  distinct_keys (map fst stats) /\
  Forall (covered (map fst stats)) done.

(** The counts a returned record stands for. *)
Definition aggregates (A : list json) (r : missed) : Prop :=
  exists k,
    attempts r = count_if (same_question k) A /\
    correct r = count_if (fun a => same_question k a && is_correct a) A /\
    incorrect r = count_if (fun a => same_question k a && negb (is_correct a)) A.

(** What holds of every record of the ranking. *)
Definition item_ok (A : list json) (min_attempts : Z) (r : missed) : Prop :=
  incorrect r <> 0 /\
  min_attempts <= attempts r /\
  aggregates A r /\
  0 < attempts r /\
  error_rate r = (inject_Z (incorrect r) / inject_Z (attempts r))%Q.

(** A ledger with three questions of one topic: the first missed once in
    two attempts, the second missed in its only attempt, the third missed
    twice in two attempts. *)
Fixpoint example_log_all (steps : list (string * call)) : M unit :=
  match steps with
  | [] => ret tt
  | (p, c) :: rest =>
      _ <~ log_attempt example_digest example_int_of_str (c_ts c) (c_topic c) p
             (c_answer c) (c_correct c) (c_response_ms c) ;;
      example_log_all rest
  end.

Definition three_questions : file :=
  snd (example_log_all
         [("Q one", example_call true (JInt 900));
          ("Q two", example_call false (JInt 1500));
          ("Q three", example_call false (JInt 700));
          ("Q one", example_call false (JInt 1100));
          ("Q three", example_call false (JInt 800))] empty_store).

Definition entropy_store : file :=
  store_after [example_call false (JInt 1000); example_call false (JInt 2000);
               example_call true (JInt 3000)].

(** *** Prompts that differ only in spacing or letter case *)



(** Whether a string begins inside a word. *)
Definition starts_word (s : string) : bool :=
  match s with
  | EmptyString => false
  | String d _ => negb (isspace d)
  end.

(** The words of a prompt in lower case. *)
Definition lower_words (s : string) : list string := map lower (split s).

(** *** Further vocabulary: the constructor and the session log *)

(** The three top-level collections are present with the right container
    types. *)
Definition shape_ok (f : file) : bool :=
  match stored_key f "sessions", stored_key f "attempts", stored_key f "questions" with
  | Some (JArr _), Some (JArr _), Some (JObj _) => true
  | _, _, _ => false
  end.

(** The file on which [log_session] does not raise. *)
Definition sessions_writable (f : file) : bool :=
  match f with
  | Stored (JObj m) =>
      match dict_get m "sessions" with
      | None | Some (JArr _) => true
      | Some _ => false
      end
  | _ => false
  end.

Definition session_entry (ts topic : string) (score details : json) : json :=
  JObj [("timestamp", JStr ts); ("topic", JStr topic);
        ("score", score); ("details", details)].

(** *** Further vocabulary: question aggregates *)

(** Strings in strictly ascending order, as [sorted] leaves a set. *)
Definition strictly_sorted (l : list string) : Prop :=
  Sorted (fun a b => String.compare a b = Lt) l.

(** The topics stored in an aggregate, when they are strings. *)
Fixpoint strings_of (l : list json) : list string :=
  match l with
  | [] => []
  | JStr s :: l' => s :: strings_of l'
  | _ :: l' => strings_of l'
  end.

(** The topics [log_attempt] finds in an aggregate: it iterates over
    [qrec.get("topics", [])]. *)
Definition topics_of (q : dict) : list string :=
  match py_iter (dict_get_default q "topics" (JArr [])) with
  | Ok items => strings_of items
  | Raise _ => []
  end.

(** The store after one attempt on the empty store, for the examples. *)
Definition first_attempt (correct response_ms : json) : M unit :=
  log_attempt example_digest example_int_of_str "2024-05-01T10:00:00Z" "Thermo"
    example_prompt "disorder" correct response_ms.

Definition after_first_attempt : file :=
  snd (first_attempt (JBool false) (JInt 1200) empty_store).

Definition second_attempt : M unit :=
  log_attempt example_digest example_int_of_str "2024-05-02T09:30:00Z" "Entropy"
    "  what is   ENTROPY? " "a measure of disorder" (JBool true) JNull.

Definition after_second_attempt : file := snd (second_attempt after_first_attempt).

(** *** Further vocabulary: sequences of writes *)

Inductive op : Type :=
| Attempt (ts topic prompt answer : string) (correct response_ms : json)
| Session (ts topic : string) (score details : json).

Definition run_op (sha256_hexdigest : string -> string)
  (int_of_str : string -> option Z) (o : op) : M unit :=
  match o with
  | Attempt ts topic prompt answer correct response_ms =>
      log_attempt sha256_hexdigest int_of_str ts topic prompt answer
        correct response_ms
  | Session ts topic score details => log_session ts topic score details
  end.

Fixpoint run_ops (sha256_hexdigest : string -> string)
  (int_of_str : string -> option Z) (ops : list op) : M unit :=
  match ops with
  | [] => ret tt
  | o :: rest =>
      _ <~ run_op sha256_hexdigest int_of_str o ;;
      run_ops sha256_hexdigest int_of_str rest
  end.






(** *** Further vocabulary: difficulty labels *)

Definition difficulty_rank (label : string) : nat :=
  if String.eqb label "easy" then 0
  else if String.eqb label "medium" then 1
  else 2.

Definition is_label (label : string) : Prop :=
  label = "easy" \/ label = "medium" \/ label = "hard".

(** A store with attempts on two topics and a session, for the examples. *)
Definition two_topics : file :=
  snd (run_ops example_digest example_int_of_str
         [Attempt "2024-05-01T10:00:00Z" "Thermo" "What is entropy?" "heat"
            (JBool false) (JInt 1500);
          Attempt "2024-05-01T10:01:00Z" "Thermo" "State the second law" "?"
            (JBool true) (JInt 2500);
          Attempt "2024-05-01T10:02:00Z" "Optics" "What is refraction?" "bending"
            (JBool true) (JInt 800);
          Session "2024-05-01T10:05:00Z" "Thermo" (JInt 50) (JObj [])]
         empty_store).

Definition optics_attempt : M unit :=
  log_attempt example_digest example_int_of_str "2024-05-03T08:00:00Z" "Optics"
    "What is a lens?" "glass" (JBool false) (JInt 3000).

(** *** Further vocabulary: words *)

Fixpoint no_space (w : string) : bool :=
  match w with
  | EmptyString => true
  | String c w' => negb (isspace c) && no_space w'
  end.

(** A non-empty string without whitespace. *)
Definition is_word (w : string) : bool :=
  match w with
  | EmptyString => false
  | String _ _ => no_space w
  end.

(** *** Further vocabulary: replies of the model *)

Fixpoint contains (c : ascii) (s : string) : bool :=
  match s with
  | EmptyString => false
  | String d s' => Ascii.eqb d c || contains c s'
  end.

(** What follows the first occurrence of a character. *)
Fixpoint after (c : ascii) (s : string) : option string :=
  match s with
  | EmptyString => None
  | String d s' => if Ascii.eqb d c then Some s' else after c s'
  end.

(** An opening brace with a closing brace somewhere after it. *)
Definition brace_pair (s : string) : bool :=
  match after "{" s with
  | Some rest => contains "}" rest
  | None => false
  end.

(** A question as the quiz loops read it: [q['prompt']], [q['answer']],
    [q.get("type")] and, for a multiple-choice question,
    [q.get("options", [])]. *)
Definition question_ok (q : json) : Prop :=
  exists m ty prompt answer,
    q = JObj m /\
    dict_get m "type" = Some (JStr ty) /\ (ty = "mcq" \/ ty = "short") /\
    dict_get m "prompt" = Some (JStr prompt) /\ strip prompt <> ""%string /\
    dict_get m "answer" = Some (JStr answer) /\ strip answer <> ""%string /\
    (ty = "mcq" ->
     exists opts, dict_get m "options" = Some (JArr opts) /\ List.length opts = 4%nat).

(** A parser that knows two documents, for the examples: the empty object
    and a grade that says the answer is correct. *)
Definition dquote : string := String "034"%char EmptyString.

Definition correct_reply : string :=
  ("{" ++ dquote ++ "correct" ++ dquote ++ ": true, "
       ++ dquote ++ "feedback" ++ dquote ++ ": "
       ++ dquote ++ "Well done." ++ dquote ++ "}")%string.

Definition example_loads (s : string) : option json :=
  if String.eqb s "{}" then Some (JObj [])
  else if String.eqb s correct_reply
  then Some (JObj [("correct", JBool true); ("feedback", JStr "Well done.")])
  else None.

(** *** Further vocabulary: the quiz loops *)

Import QuizLoop.






(** A quiz of three questions, the second one answered correctly. *)
Definition example_turns : list turn :=
  [mk_turn "What is entropy?" "heat" 1500 "I cannot grade this."
     "2024-05-01T10:00:00Z";
   mk_turn "State the second law" "entropy never decreases" 2300 correct_reply
     "2024-05-01T10:01:00Z";
   mk_turn "Define enthalpy" "" 900 "{}" "2024-05-01T10:02:00Z"].

(** * Properties *)

(** ** Dictionaries *)

Lemma dict_get_set (m : dict) (k k' : string) (v : json) :
  dict_get (dict_set m k v) k' = if String.eqb k k' then Some v else dict_get m k'.
Proof.
  induction m as [|[k0 v0] m IH]; simpl.
  - destruct (String.eqb_spec k k'); reflexivity.
  - destruct (String.eqb_spec k0 k) as [->|Hne]; simpl.
    + destruct (String.eqb_spec k k'); reflexivity.
    + rewrite IH.
      destruct (String.eqb_spec k0 k') as [->|Hne'].
      * destruct (String.eqb_spec k k'); [congruence|reflexivity].
      * reflexivity.
Qed.

Lemma dict_get_set_same (m : dict) (k : string) (v : json) :
  dict_get (dict_set m k v) k = Some v.
Proof. rewrite dict_get_set, String.eqb_refl. reflexivity. Qed.

Lemma dict_get_set_other (m : dict) (k k' : string) (v : json) :
  k <> k' -> dict_get (dict_set m k v) k' = dict_get m k'.
Proof.
  intros Hne. rewrite dict_get_set.
  destruct (String.eqb_spec k k'); [contradiction|reflexivity].
Qed.

Lemma dict_get_setdefault (m : dict) (k k' : string) (v : json) :
  dict_get (dict_setdefault m k v) k' =
  if String.eqb k k'
  then Some (dict_get_default m k v)
  else dict_get m k'.
Proof.
  unfold dict_setdefault, dict_has, dict_get_default.
  destruct (dict_get m k) eqn:E.
  - destruct (String.eqb_spec k k') as [<-|]; [exact E|reflexivity].
  - rewrite dict_get_set. reflexivity.
Qed.

(** Comparisons of string literals are decided by computation. *)
Ltac eqb_lit :=
  repeat match goal with
    | |- context [String.eqb ?a ?b] =>
        let v := eval vm_compute in (String.eqb a b) in
        match v with
        | true => change (String.eqb a b) with true
        | false => change (String.eqb a b) with false
        end
    end;
  cbv iota.

Ltac lookup :=
  repeat (rewrite dict_get_set || rewrite dict_get_setdefault); eqb_lit.

Lemma attempts_of_dict (m : dict) :
  attempts_of (Stored (JObj m)) =
  match dict_get m "attempts" with Some (JArr l) => l | _ => [] end.
Proof. reflexivity. Qed.

Lemma dict_get_default_setdefault_other (m : dict) (k k' : string) (v d : json) :
  k <> k' ->
  dict_get_default (dict_setdefault m k v) k' d = dict_get_default m k' d.
Proof.
  intros Hne. unfold dict_get_default at 1. rewrite dict_get_setdefault.
  destruct (String.eqb_spec k k'); [contradiction|reflexivity].
Qed.

(** ** Repair on construction *)

Lemma repair_key_get (k : string) (T : json -> bool) (empty : json)
  (data : dict) (changed : bool) (k' : string) :
  dict_get (fst (repair_key k T empty (data, changed))) k' =
  if String.eqb k k'
  then Some (repaired T empty (dict_get data k))
  else dict_get data k'.
Proof.
  unfold repair_key, repaired.
  destruct (dict_get data k) as [v|] eqn:E.
  - destruct (T v); simpl.
    + destruct (String.eqb_spec k k') as [<-|]; [exact E|reflexivity].
    + apply dict_get_set.
  - simpl. apply dict_get_set.
Qed.

Lemma repair_key_unchanged (k : string) (T : json -> bool) (empty : json)
  (data data' : dict) (changed : bool) :
  repair_key k T empty (data, changed) = (data', false) ->
  data' = data /\ changed = false.
Proof.
  unfold repair_key.
  destruct (dict_get data k) as [v|]; [destruct (T v)|]; intros H;
    inversion H; auto.
Qed.

Lemma init_dict (m : dict) : exists data,
  __init__ (Stored (JObj m)) = (Ok tt, Stored (JObj data)) /\
  forall k, dict_get data k = after_repair (Stored (JObj m)) k.
Proof.
  change (__init__ (Stored (JObj m))) with
    ((let '(data, changed) :=
       repair_key "questions" isinstance_dict (JObj [])
         (repair_key "attempts" isinstance_list (JArr [])
            (repair_key "sessions" isinstance_list (JArr []) (m, false))) in
     if changed then _write (JObj data) else ret tt) (Stored (JObj m))).
  destruct (repair_key "sessions" isinstance_list (JArr []) (m, false))
    as [d1 c1] eqn:E1.
  destruct (repair_key "attempts" isinstance_list (JArr []) (d1, c1))
    as [d2 c2] eqn:E2.
  destruct (repair_key "questions" isinstance_dict (JObj []) (d2, c2))
    as [d3 c3] eqn:E3.
  assert (G : forall k, dict_get d3 k = after_repair (Stored (JObj m)) k).
  { intros k.
    pose proof (repair_key_get "questions" isinstance_dict (JObj []) d2 c2 k) as H3.
    pose proof (repair_key_get "attempts" isinstance_list (JArr []) d1 c1) as H2.
    pose proof (repair_key_get "sessions" isinstance_list (JArr []) m false) as H1.
    rewrite E3 in H3. rewrite E2 in H2. rewrite E1 in H1. simpl fst in *.
    assert (Hq : dict_get d2 "questions" = dict_get m "questions")
      by (transitivity (dict_get d1 "questions");
          [rewrite (H2 "questions")|rewrite (H1 "questions")]; reflexivity).
    assert (Ha : dict_get d1 "attempts" = dict_get m "attempts")
      by (rewrite (H1 "attempts"); reflexivity).
    unfold after_repair, stored_key.
    rewrite H3, Hq, (H2 k), Ha, (H1 k).
    rewrite (String.eqb_sym k "sessions"), (String.eqb_sym k "attempts"),
      (String.eqb_sym k "questions").
    destruct (String.eqb_spec "sessions" k) as [Es|Es]; [subst k; reflexivity|].
    destruct (String.eqb_spec "attempts" k) as [Ea|Ea]; [subst k; reflexivity|].
    destruct (String.eqb_spec "questions" k) as [Eq|Eq]; [subst k|]; reflexivity. }
  destruct c3.
  - exists d3. split; [reflexivity|exact G].
  - apply repair_key_unchanged in E3. destruct E3 as [-> ->].
    apply repair_key_unchanged in E2. destruct E2 as [-> ->].
    apply repair_key_unchanged in E1. destruct E1 as [-> _].
    exists m. split; [reflexivity|exact G].
Qed.

Lemma after_repair_nothing_stored (f : file) :
  (forall k, stored_key f k = None) ->
  forall k, dict_get canonical_empty k = after_repair f k.
Proof.
  intros H k. unfold after_repair. rewrite H.
  unfold canonical_empty, repaired. cbn -[String.eqb].
  rewrite (String.eqb_sym k "sessions"), (String.eqb_sym k "attempts"),
    (String.eqb_sym k "questions").
  destruct (String.eqb "sessions" k); [reflexivity|].
  destruct (String.eqb "attempts" k); [reflexivity|].
  destruct (String.eqb "questions" k); reflexivity.
Qed.

Lemma init_lookup (f : file) :
  exists data,
    __init__ f = (Ok tt, Stored (JObj data)) /\
    forall k, dict_get data k = after_repair f k.
Proof.
  destruct f as [| |v]; [| |destruct v; try apply init_dict];
    (exists canonical_empty; split;
     [reflexivity|apply after_repair_nothing_stored; reflexivity]).
Qed.



(** ** Excluded prompts *)

Lemma excluded_prompts_of_correct (data : json) (topic : option string) :
  excluded_prompts_of data "correct" topic =
  (questions <- py_get data "questions" (JObj []) ;;
   recs <- dict_values_of questions ;;
   comprehension (correct_cond topic) prompt_of recs).
Proof. reflexivity. Qed.

Lemma excluded_prompts_of_other (data : json) (mode : string) (topic : option string) :
  String.eqb mode "correct" = false ->
  excluded_prompts_of data mode topic =
  (questions <- py_get data "questions" (JObj []) ;;
   recs <- dict_values_of questions ;;
   comprehension (topic_match topic) prompt_of recs).
Proof.
  intros H. unfold excluded_prompts_of. rewrite H. reflexivity.
Qed.

(** On one record the two filters raise together, and the stricter one
    keeps the record only if the other does. *)
Lemma correct_cond_topic_match (topic : option string) (rec : json) :
  match correct_cond topic rec with
  | Ok true => topic_match topic rec = Ok true /\ is_ok (prompt_of rec) = true
  | Ok false => is_ok (topic_match topic rec) = true /\ is_ok (prompt_of rec) = true
  | Raise e => (topic_match topic rec = Raise e \/
                (topic_match topic rec = Ok true /\ prompt_of rec = Raise e))
  end.
Proof.
  unfold correct_cond, topic_match, prompt_of.
  destruct rec as [| b | n | q | s | l | m]; simpl;
    try (destruct topic; simpl; auto; fail).
  destruct (is_True (dict_get_default m "last_correct" JNull)).
  - destruct topic as [t|]; simpl; [|auto].
    destruct (dict_get_default m "topics" (JArr [])); simpl; auto.
    destruct (existsb (fun x => py_eq_str x t) l); auto.
  - destruct topic as [t|]; simpl; [|auto].
    destruct (dict_get_default m "topics" (JArr [])); simpl; auto.
Qed.

Lemma comprehension_correct_all (topic : option string) (recs : list json) :
  match comprehension (correct_cond topic) prompt_of recs with
  | Ok c => exists a, comprehension (topic_match topic) prompt_of recs = Ok a /\ incl c a
  | Raise e => comprehension (topic_match topic) prompt_of recs = Raise e
  end.
Proof.
  induction recs as [|rec recs IH]; simpl.
  - exists []. split; [reflexivity|apply incl_refl].
  - pose proof (correct_cond_topic_match topic rec) as H.
    destruct (correct_cond topic rec) as [[|]|e]; simpl.
    + destruct H as [Ht Hp]. rewrite Ht. simpl.
      destruct (prompt_of rec) as [p|]; [simpl|discriminate].
      destruct (comprehension (correct_cond topic) prompt_of recs) as [c|e]; simpl.
      * destruct IH as [a [Ha Hincl]]. rewrite Ha. simpl.
        exists (p :: a). split; [reflexivity|].
        intros x [<-|Hx]; [left; reflexivity|right; auto].
      * rewrite IH. reflexivity.
    + destruct H as [Ht Hp].
      destruct (topic_match topic rec) as [[|]|]; [| |discriminate]; simpl.
      * destruct (prompt_of rec) as [p|]; [simpl|discriminate].
        destruct (comprehension (correct_cond topic) prompt_of recs) as [c|e].
        -- destruct IH as [a [Ha Hincl]]. rewrite Ha. simpl.
           exists (p :: a). split; [reflexivity|]. apply incl_tl. exact Hincl.
        -- rewrite IH. reflexivity.
      * exact IH.
    + destruct H as [Ht|[Ht Hp]]; rewrite Ht; simpl; [reflexivity|].
      rewrite Hp. reflexivity.
Qed.

(** Queries leave the file alone. *)
Lemma get_excluded_prompts_reads (mode : string) (topic : option string) (f : file) :
  snd (get_excluded_prompts mode topic f) = f.
Proof.
  unfold get_excluded_prompts, bindM, _read, lift.
  destruct f; reflexivity.
Qed.

(** C7. For every file and every topic filter, absent or given, the
    prompts excluded in mode "correct" are among the prompts excluded in
    mode "all"; and where one of the two queries raises, so does the
    other. *)
Theorem excluded_correct_subset_all (f : file) (topic : option string) :
  match fst (get_excluded_prompts "correct" topic f) with
  | Ok c =>
      exists a, fst (get_excluded_prompts "all" topic f) = Ok a /\ incl c a
  | Raise e => fst (get_excluded_prompts "all" topic f) = Raise e
  end.
Proof.
  unfold get_excluded_prompts, bindM, lift.
  destruct (_read f) as [[data|e] f']; simpl; [|reflexivity].
  rewrite excluded_prompts_of_correct.
  rewrite (excluded_prompts_of_other data "all" topic eq_refl).
  destruct (py_get data "questions" (JObj [])) as [questions|e]; simpl; [|reflexivity].
  destruct (dict_values_of questions) as [recs|e]; simpl; [|reflexivity].
  apply comprehension_correct_all.
Qed.


(** ** Logging an attempt *)

Section LogAttempt.

Variable sha256_hexdigest : string -> string.
Variable int_of_str : string -> option Z.

Lemma make_attempt_entry_bad_ms (ts topic qid prompt answer : string)
  (correct response_ms : json) (e : exn) :
  response_ms <> JNull ->
  py_int int_of_str response_ms = Raise e ->
  make_attempt_entry int_of_str ts topic qid prompt answer correct response_ms
  = Raise e.
Proof.
  intros Hsupplied Hint. unfold make_attempt_entry.
  destruct response_ms; try contradiction; rewrite Hint; reflexivity.
Qed.

(** C8. A call of [log_attempt] whose [response_ms] is supplied but is
    rejected by [int] raises, and the file is afterwards exactly the file
    before the call: attempts, questions and sessions are untouched.  On
    a readable dictionary the exception is the one of the conversion. *)
Theorem log_attempt_rejects_bad_response_ms (f : file)
  (ts topic prompt answer : string) (correct response_ms : json) (e : exn) :
  response_ms <> JNull ->
  py_int int_of_str response_ms = Raise e ->
  (exists e',
     log_attempt sha256_hexdigest int_of_str ts topic prompt answer
       correct response_ms f = (Raise e', f)) /\
  (forall m, f = Stored (JObj m) ->
     log_attempt sha256_hexdigest int_of_str ts topic prompt answer
       correct response_ms f = (Raise e, f)).
Proof.
  intros Hsupplied Hint.
  assert (Hdict : forall m,
    log_attempt sha256_hexdigest int_of_str ts topic prompt answer
      correct response_ms (Stored (JObj m)) = (Raise e, Stored (JObj m))).
  { intros m. unfold log_attempt, bindM, _read, lift, attempt_update. simpl.
    rewrite (make_attempt_entry_bad_ms _ _ _ _ _ _ _ e Hsupplied Hint).
    reflexivity. }
  split.
  - destruct f as [| |v].
    + exists FileNotFoundError. reflexivity.
    + exists JSONDecodeError. reflexivity.
    + destruct v; try (exists AttributeError; reflexivity).
      exists e. apply Hdict.
  - intros m ->. apply Hdict.
Qed.

End LogAttempt.

(** The rejected value of the witness is a list. *)
Lemma log_attempt_rejects_bad_response_ms_witness :
  (exists e',
     log_attempt example_digest example_int_of_str "2024-01-01T00:00:00Z"
       "Thermo" "What is entropy?" "disorder" (JBool true) (JArr [])
       (Stored (JObj canonical_empty))
     = (Raise e', Stored (JObj canonical_empty))) /\
  (forall m, Stored (JObj canonical_empty) = Stored (JObj m) ->
     log_attempt example_digest example_int_of_str "2024-01-01T00:00:00Z"
       "Thermo" "What is entropy?" "disorder" (JBool true) (JArr [])
       (Stored (JObj canonical_empty))
     = (Raise TypeError, Stored (JObj canonical_empty))).
Proof.
  apply (log_attempt_rejects_bad_response_ms example_digest example_int_of_str).
  - discriminate.
  - reflexivity.
Defined.

(** ** The ledger is append-only *)

Section Ledger.

Variable sha256_hexdigest : string -> string.
Variable int_of_str : string -> option Z.

(** A successful in-memory update appends one entry to the ledger and
    touches no top-level key other than "attempts" and "questions". *)
Lemma attempt_update_frame (data : json) (ts topic prompt answer : string)
  (correct response_ms d' : json) :
  attempt_update sha256_hexdigest int_of_str data ts topic prompt answer
    correct response_ms = Ok d' ->
  exists m m' entry,
    data = JObj m /\ d' = JObj m' /\
    make_attempt_entry int_of_str ts topic (question_id sha256_hexdigest prompt)
      prompt answer correct response_ms = Ok entry /\
    dict_get m' "attempts" =
      Some (JArr (attempts_of (Stored (JObj m)) ++ [JObj entry])) /\
    forall k, k <> "attempts" -> k <> "questions" -> dict_get m' k = dict_get m k.
Proof.
  unfold attempt_update.
  destruct data as [| | | | | |m]; try discriminate. simpl as_dict. simpl bind.
  destruct (make_attempt_entry int_of_str ts topic _ prompt answer correct response_ms)
    as [entry|] eqn:Eentry; [simpl bind|discriminate].
  set (m1 := dict_setdefault (dict_setdefault m "attempts" (JArr [])) "questions" (JObj [])).
  destruct (list_at m1 "attempts") as [attempts|] eqn:Eatt; [simpl bind|discriminate].
  destruct (dict_get (dict_set m1 "attempts" _) "questions") as [v|];
    [|discriminate].
  destruct (as_dict v) as [questions|]; [simpl bind|discriminate].
  destruct (update_question int_of_str _ ts topic answer correct response_ms)
    as [qrec|]; [simpl bind|discriminate].
  intros H. inversion H; subst d'; clear H.
  eexists m, _, entry. split; [reflexivity|]. split; [reflexivity|].
  split; [reflexivity|].
  assert (Hold : attempts_of (Stored (JObj m)) = attempts).
  { rewrite attempts_of_dict. unfold list_at, m1 in Eatt. revert Eatt. lookup.
    unfold dict_get_default.
    destruct (dict_get m "attempts") as [[]|]; intros E; inversion E; reflexivity. }
  split.
  - lookup. rewrite Hold. reflexivity.
  - intros k Hka Hkq. unfold m1.
    rewrite !dict_get_set, !dict_get_setdefault.
    destruct (String.eqb_spec "questions" k); [congruence|].
    destruct (String.eqb_spec "attempts" k); [congruence|].
    reflexivity.
Qed.

Lemma session_update_frame (data : json) (ts topic : string) (score details d' : json) :
  session_update data ts topic score details = Ok d' ->
  exists m m',
    data = JObj m /\ d' = JObj m' /\
    forall k, k <> "sessions" -> dict_get m' k = dict_get m k.
Proof.
  unfold session_update.
  destruct data as [| | | | | |m]; try discriminate. simpl as_dict. simpl bind.
  destruct (list_at _ "sessions") as [sessions|]; [simpl bind|discriminate].
  intros H. inversion H; subst d'; clear H.
  eexists m, _. split; [reflexivity|]. split; [reflexivity|].
  intros k Hk. rewrite dict_get_set, dict_get_setdefault.
  destruct (String.eqb_spec "sessions" k); [congruence|reflexivity].
Qed.


End Ledger.

(** ** Well-formed stores accept every valid attempt *)





Section Accepts.

Variable sha256_hexdigest : string -> string.
Variable int_of_str : string -> option Z.







End Accepts.

Section AppendOnly.

Variable sha256_hexdigest : string -> string.
Variable int_of_str : string -> option Z.


End AppendOnly.

(** ** Rounding a quotient of integers *)






(** ** The running average over timed calls *)






(** ** Sequences of attempts on one prompt *)




Section Sequences.

Variable sha256_hexdigest : string -> string.
Variable int_of_str : string -> option Z.

Let qid (prompt : string) : string := question_id sha256_hexdigest prompt.




End Sequences.

(** The end-to-end example of the specification: three attempts with
    response times 1000, 2000 and 3000. *)
Example entropy_three_attempts :
  exists f q,
    example_log [example_call false (JInt 1000); example_call false (JInt 2000);
                 example_call true (JInt 3000)] empty_store = (Ok tt, f) /\
    question_record f example_qid = Some (JObj q) /\
    dict_get q "times_asked" = Some (JInt 3) /\
    dict_get q "last_correct" = Some (JBool true) /\
    dict_get q "avg_response_ms" = Some (JInt 2000) /\
    List.length (attempts_of f) = 3%nat.
Proof.
  eexists. eexists.
  split; [vm_compute; reflexivity|].
  split; [vm_compute; reflexivity|].
  repeat split.
Qed.



(** An attempt without a response time still weighs on the average of the
    next timed one: 1000, none, 4000 leaves 2000, not 2500. *)
Example untimed_attempt_weighs_on_average :
  let calls := [example_call true (JInt 1000); example_call true JNull;
                example_call true (JInt 4000)] in
  exists f q,
    example_log calls empty_store = (Ok tt, f) /\
    question_record f example_qid = Some (JObj q) /\
    dict_get q "times_asked" = Some (JInt 3) /\
    dict_get q "avg_response_ms" = Some (JInt 2000) /\
    supplied (responses example_int_of_str calls) = [1000; 4000] /\
    (mean [1000; 4000]%Z == 2500 # 1)%Q.
Proof.
  intros calls. eexists. eexists.
  split; [vm_compute; reflexivity|].
  split; [vm_compute; reflexivity|].
  repeat split.
Qed.



(** ** Adaptive difficulty *)

Lemma Qltb_lt (x y : Q) : Qltb x y = true <-> (x < y)%Q.
Proof.
  unfold Qltb. rewrite negb_true_iff.
  split.
  - intros H. apply Qnot_le_lt. intros Hle.
    apply Qle_bool_iff in Hle. congruence.
  - intros H. destruct (Qle_bool y x) eqn:E; [|reflexivity].
    apply Qle_bool_iff in E. exfalso. exact (Qlt_not_le _ _ H E).
Qed.

Lemma Qltb_dec (x y : Q) :
  Qltb x y = if Qlt_le_dec x y then true else false.
Proof.
  destruct (Qlt_le_dec x y) as [H|H].
  - apply Qltb_lt. exact H.
  - destruct (Qltb x y) eqn:E; [|reflexivity].
    apply Qltb_lt in E. exfalso. exact (Qlt_not_le _ _ E H).
Qed.




Lemma count_correct_filter (A : list json) :
  count_correct A = Z.of_nat (List.length (filter is_correct A)).
Proof.
  reflexivity.
Qed.



Section Difficulty.

Variable float_of_str : string -> option Q.



End Difficulty.

Example difficulty_easy :
  fst (get_adaptive_difficulty example_float_of_str "Thermo" (store_after three_of_ten))
  = Ok "easy".
Proof. vm_compute. reflexivity. Qed.

Example difficulty_medium :
  fst (get_adaptive_difficulty example_float_of_str "Thermo" (store_after three_of_five))
  = Ok "medium".
Proof. vm_compute. reflexivity. Qed.

(** Four of five correct is an accuracy of exactly 0.8, which is "hard". *)
Example difficulty_hard_at_threshold :
  fst (get_adaptive_difficulty example_float_of_str "Thermo" (store_after four_of_five))
  = Ok "hard".
Proof. vm_compute. reflexivity. Qed.

Example difficulty_no_data :
  fst (get_adaptive_difficulty example_float_of_str "Optics" (store_after four_of_five))
  = Ok "medium".
Proof. vm_compute. reflexivity. Qed.

(** Without attempts the sessions decide: scores 90 and 100 are 0.95. *)
Example difficulty_from_sessions :
  fst (get_adaptive_difficulty example_float_of_str "Optics" two_sessions) = Ok "hard" /\
  (spec_accuracy "Optics" (attempts_of two_sessions) (sessions_of two_sessions)
   == 95 # 100)%Q.
Proof. split; vm_compute; reflexivity. Qed.


(** ** Frequently missed questions *)

Lemma key_compare_antisym (x y : missed) :
  key_compare y x = CompOpp (key_compare x y).
Proof.
  unfold key_compare.
  rewrite <- (Qcompare_antisym (error_rate x) (error_rate y)).
  rewrite (Z.compare_antisym (attempts x) (attempts y)).
  rewrite (Z.compare_antisym (avg_or_0 x) (avg_or_0 y)).
  destruct (error_rate x ?= error_rate y)%Q; simpl; try reflexivity.
  destruct (attempts x ?= attempts y); simpl; reflexivity.
Qed.

Lemma avg_or_0_zero (x : missed) : avg_or_0 x = avg_or_zero x.
Proof.
  unfold avg_or_0, avg_or_zero.
  destruct (avg_response_ms x) as [ms|]; [|reflexivity].
  destruct (Z.eqb_spec ms 0); congruence.
Qed.

(** The order of the sort keys is the lexicographic order of the
    specification. *)
Lemma key_compare_triple_ge (x y : missed) :
  key_compare x y <> Lt <-> triple_ge x y.
Proof.
  unfold key_compare, triple_ge. rewrite !avg_or_0_zero.
  destruct (Qcompare_spec (error_rate x) (error_rate y)) as [E|E|E].
  - destruct (Z.compare_spec (attempts x) (attempts y)) as [A|A|A].
    + destruct (Z.compare_spec (avg_or_zero x) (avg_or_zero y)) as [M|M|M].
      * split; [intros _|discriminate]. right. split; [exact E|]. right. lia.
      * split; [congruence|]. intros [H|[_ [H|[_ H]]]]; try lia.
        rewrite E in H. exfalso. exact (Qlt_irrefl _ H).
      * split; [intros _|discriminate]. right. split; [exact E|]. right. lia.
    + split; [congruence|]. intros [H|[_ [H|[H _]]]]; try lia.
      rewrite E in H. exfalso. exact (Qlt_irrefl _ H).
    + split; [intros _|discriminate]. right. split; [exact E|]. left. lia.
  - split; [congruence|]. intros [H|[H _]].
    + exfalso. exact (Qlt_irrefl _ (Qlt_trans _ _ _ E H)).
    + rewrite H in E. exfalso. exact (Qlt_irrefl _ E).
  - split; [intros _|discriminate]. left. exact E.
Qed.

Lemma insert_desc_perm (x : missed) (l : list missed) :
  Permutation (x :: l) (insert_desc x l).
Proof.
  induction l as [|y l IH]; simpl; [apply Permutation_refl|].
  destruct (key_compare x y); try apply Permutation_refl.
  eapply Permutation_trans; [apply perm_swap|]. apply perm_skip. exact IH.
Qed.

Lemma sort_desc_perm (l : list missed) : Permutation l (sort_desc l).
Proof.
  induction l as [|x l IH]; simpl; [apply Permutation_refl|].
  eapply Permutation_trans; [apply perm_skip; exact IH|]. apply insert_desc_perm.
Qed.

Lemma insert_desc_hd (x y : missed) (l : list missed) :
  triple_ge y x -> HdRel triple_ge y l -> HdRel triple_ge y (insert_desc x l).
Proof.
  intros Hyx Hl. destruct l as [|z l]; simpl.
  - constructor. exact Hyx.
  - destruct (key_compare x z); constructor; auto; inversion Hl; auto.
Qed.

Lemma insert_desc_sorted (x : missed) (l : list missed) :
  Sorted triple_ge l -> Sorted triple_ge (insert_desc x l).
Proof.
  induction l as [|y l IH]; simpl; intros Hl.
  - repeat constructor.
  - destruct (key_compare x y) eqn:E.
    + constructor; [exact Hl|]. constructor.
      apply key_compare_triple_ge. congruence.
    + apply Sorted_inv in Hl. destruct Hl as [Hl Hhd].
      constructor; [apply IH; exact Hl|].
      apply insert_desc_hd; [|exact Hhd].
      apply key_compare_triple_ge. rewrite key_compare_antisym, E. discriminate.
    + constructor; [exact Hl|]. constructor.
      apply key_compare_triple_ge. congruence.
Qed.

Lemma sort_desc_sorted (l : list missed) : Sorted triple_ge (sort_desc l).
Proof.
  induction l as [|x l IH]; simpl; [constructor|].
  apply insert_desc_sorted. exact IH.
Qed.


Lemma firstn_Forall {A : Type} (P : A -> Prop) (n : nat) (l : list A) :
  Forall P l -> Forall P (firstn n l).
Proof.
  revert l. induction n as [|n IH]; intros l Hl; [constructor|].
  destruct l as [|x l]; [constructor|]. simpl.
  inversion Hl; subst. constructor; auto.
Qed.


Lemma slice_to_Forall {A : Type} (P : A -> Prop) (l : list A) (n : Z) :
  Forall P l -> Forall P (slice_to l n).
Proof. unfold slice_to. destruct (0 <=? n); apply firstn_Forall. Qed.



(** *** Keys of the statistics *)

Lemma key_eqb_refl (k : json) :
  py_truthy k = true -> hashable k = true -> key_eqb k k = true.
Proof.
  destruct k; simpl; try discriminate; intros _ _.
  - apply Qeq_bool_iff. reflexivity.
  - apply Qeq_bool_iff. reflexivity.
  - apply Qeq_bool_iff. reflexivity.
  - apply String.eqb_refl.
Qed.

Lemma key_eqb_number (a b : json) :
  key_eqb a b = true ->
  (exists s, a = JStr s /\ b = JStr s) \/
  (exists x y, number_value a = Some x /\ number_value b = Some y /\ (x == y)%Q).
Proof.
  unfold key_eqb.
  destruct a; destruct b; simpl; try discriminate; intros H;
    try (right; eexists; eexists; split; [reflexivity|]; split; [reflexivity|];
         apply Qeq_bool_iff; exact H).
  left. apply String.eqb_eq in H. subst. eexists; split; reflexivity.
Qed.

(** Two keys equal to a third one are equal. *)
Lemma key_eqb_join (a b c : json) :
  key_eqb a c = true -> key_eqb b c = true -> key_eqb a b = true.
Proof.
  intros Hac Hbc.
  destruct (key_eqb_number a c Hac) as [(s & Ea & Ec)|(x & z & Hx & Hz & Exz)];
    destruct (key_eqb_number b c Hbc) as [(t & Eb & Et)|(y & z' & Hy & Hz' & Eyz)].
  - subst a b c. inversion Et; subst. apply String.eqb_refl.
  - subst c. discriminate.
  - subst c. discriminate.
  - rewrite Hz in Hz'. inversion Hz'; subst z'.
    assert (E : (x == y)%Q) by (rewrite Exz, Eyz; reflexivity).
    unfold key_eqb. rewrite Hx, Hy.
    destruct a; destruct b; try discriminate; apply Qeq_bool_iff; exact E.
Qed.

(** *** One step of the counting loop *)

Lemma count_if_app (P : json -> bool) (l : list json) (a : json) :
  count_if P (l ++ [a]) = count_if P l + (if P a then 1 else 0).
Proof.
  unfold count_if. rewrite filter_app, length_app. simpl.
  destruct (P a); simpl; lia.
Qed.

Lemma stats_update_cases (stats : list (json * stat)) (qid : json) (a : dict) :
  (Forall (fun e => key_eqb (fst e) qid = false) stats /\
   stats_update stats qid a =
     stats ++ [(qid, count_attempt a
                       (mk_stat (dict_get_default a "prompt" (JStr "")) 0 0 0 0 0))]) \/
  (exists s1 k st s2,
     stats = s1 ++ (k, st) :: s2 /\
     Forall (fun e => key_eqb (fst e) qid = false) s1 /\
     key_eqb k qid = true /\
     stats_update stats qid a = s1 ++ (k, count_attempt a st) :: s2).
Proof.
  induction stats as [|[k st] stats IH]; simpl.
  - left. split; [constructor|reflexivity].
  - destruct (key_eqb k qid) eqn:E.
    + right. exists [], k, st, stats. repeat split; auto.
    + destruct IH as [[Hall Hupd]|(s1 & k' & st' & s2 & Hs & Hall & Hk & Hupd)].
      * left. split; [constructor; auto|]. rewrite Hupd. reflexivity.
      * right. exists ((k, st) :: s1), k', st', s2. subst stats.
        repeat split; auto. rewrite Hupd. reflexivity.
Qed.

Lemma stat_counts_skip (done : list json) (a : json) (e : json * stat) :
  same_question (fst e) a = false ->
  stat_counts done e -> stat_counts (done ++ [a]) e.
Proof.
  intros Hno (Ht & Hh & Ha & Hc & Hi). unfold stat_counts.
  rewrite !count_if_app. cbv beta. rewrite Hno.
  cbn [andb]. rewrite !Z.add_0_r. auto.
Qed.

Lemma stat_counts_hit (done : list json) (m : dict) (k : json) (st : stat) :
  same_question k (JObj m) = true ->
  stat_counts done (k, st) ->
  stat_counts (done ++ [JObj m]) (k, count_attempt m st).
Proof.
  intros Hyes (Ht & Hh & Ha & Hc & Hi). unfold stat_counts.
  simpl fst in *. simpl snd in *.
  rewrite !count_if_app. cbv beta. rewrite Hyes.
  unfold count_attempt.
  change (is_True (dict_get_default m "correct" JNull)) with (is_correct (JObj m)).
  cbn [st_attempts st_correct st_incorrect].
  destruct (is_correct (JObj m)); cbn [andb negb]; repeat split; auto; lia.
Qed.

Lemma stats_inv_skip (done : list json) (stats : list (json * stat)) (a : json) :
  py_truthy (qid_of a) = false ->
  stats_inv done stats -> stats_inv (done ++ [a]) stats.
Proof.
  intros Hf (Hc & Hd & Hcov). split; [|split].
  - eapply Forall_impl; [|exact Hc]. intros e. apply stat_counts_skip.
    unfold same_question. rewrite Hf. reflexivity.
  - exact Hd.
  - apply Forall_app. split; [exact Hcov|]. constructor; [|constructor].
    intros Ht. congruence.
Qed.

Lemma distinct_keys_app (l : list json) (k : json) :
  distinct_keys l ->
  Forall (fun k' => key_eqb k' k = false) l ->
  distinct_keys (l ++ [k]).
Proof.
  induction l as [|x l IH]; simpl; intros Hd Hall; [auto|].
  destruct Hd as [Hx Hd]. inversion Hall; subst.
  split; [apply Forall_app; split; auto|apply IH; auto].
Qed.

Lemma stats_inv_update (done : list json) (stats : list (json * stat)) (m : dict) :
  py_truthy (qid_of (JObj m)) = true ->
  hashable (qid_of (JObj m)) = true ->
  stats_inv done stats ->
  stats_inv (done ++ [JObj m]) (stats_update stats (qid_of (JObj m)) m).
Proof.
  intros Ht Hh (Hc & Hd & Hcov).
  set (qid := qid_of (JObj m)) in *.
  destruct (stats_update_cases stats qid m)
    as [[Hall ->]|(s1 & k & st & s2 & -> & Hall & Hk & ->)].
  - (* a new key *)
    assert (Hnone : count_if (same_question qid) done = 0 /\
                    forall P, count_if (fun a => same_question qid a && P a) done = 0).
    { assert (Hz : forall a, In a done -> same_question qid a = false).
      { intros a Hin. unfold same_question.
        destruct (py_truthy (qid_of a)) eqn:Eta; [|reflexivity]. simpl.
        destruct (key_eqb qid (qid_of a)) eqn:Eq; [|reflexivity]. exfalso.
        rewrite Forall_forall in Hcov. specialize (Hcov a Hin Eta).
        apply Exists_exists in Hcov. destruct Hcov as (k' & Hin' & Hk').
        apply in_map_iff in Hin'. destruct Hin' as (e & <- & Hine).
        rewrite Forall_forall in Hall. specialize (Hall e Hine).
        rewrite (key_eqb_join (fst e) qid (qid_of a) Hk' Eq) in Hall.
        discriminate. }
      unfold count_if. split; [|intros P].
      - replace (filter (same_question qid) done) with (@nil json); [reflexivity|].
        symmetry. clear -Hz. induction done as [|a done IH]; [reflexivity|].
        simpl. rewrite (Hz a) by (left; reflexivity). apply IH.
        intros; apply Hz; right; auto.
      - replace (filter (fun a => same_question qid a && P a) done) with (@nil json);
          [reflexivity|].
        symmetry. clear -Hz. induction done as [|a done IH]; [reflexivity|].
        simpl. rewrite (Hz a) by (left; reflexivity). simpl. apply IH.
        intros; apply Hz; right; auto. }
    destruct Hnone as [Hn0 HnP].
    assert (Hself : same_question qid (JObj m) = true).
    { unfold same_question. fold qid. rewrite Ht. simpl.
      apply key_eqb_refl; assumption. }
    split; [|split].
    + apply Forall_app. split.
      * rewrite Forall_forall in Hc, Hall |- *. intros e Hin.
        apply stat_counts_skip; [|apply Hc; exact Hin].
        unfold same_question. fold qid. rewrite Ht, (Hall e Hin). reflexivity.
      * constructor; [|constructor].
        apply (stat_counts_hit done m qid
                 (mk_stat (dict_get_default m "prompt" (JStr "")) 0 0 0 0 0) Hself).
        unfold stat_counts. simpl. rewrite Hn0, !HnP. auto.
    + rewrite map_app. simpl. apply distinct_keys_app; [exact Hd|].
      rewrite Forall_forall in Hall |- *. intros k' Hin.
      apply in_map_iff in Hin. destruct Hin as (e & <- & Hine). apply Hall. exact Hine.
    + rewrite map_app. simpl. apply Forall_app. split.
      * eapply Forall_impl; [|exact Hcov]. intros a Ha Hta.
        apply Exists_app. left. apply Ha. exact Hta.
      * constructor; [|constructor]. intros _.
        apply Exists_app. right. constructor. fold qid.
        apply key_eqb_refl; assumption.
  - (* a key that is there *)
    apply Forall_app in Hc. destruct Hc as [Hc1 Hc2].
    inversion Hc2 as [|? ? Hck Hc3]; subst.
    unfold stats_inv.
    rewrite map_app in Hd, Hcov |- *. simpl map in Hd, Hcov |- *.
    assert (Hs2 : Forall (fun e => key_eqb (fst e) qid = false) s2).
    { assert (Hd2 : Forall (fun k' => key_eqb k k' = false) (map fst s2)).
      { clear -Hd. induction s1 as [|e s1 IH]; simpl in Hd; [tauto|].
        apply IH. tauto. }
      rewrite Forall_forall in Hd2 |- *. intros e Hin.
      destruct (key_eqb (fst e) qid) eqn:E; [|reflexivity]. exfalso.
      specialize (Hd2 (fst e) (in_map fst s2 e Hin)).
      rewrite (key_eqb_join k (fst e) qid Hk E) in Hd2. discriminate. }
    assert (Hself : same_question k (JObj m) = true).
    { unfold same_question. fold qid. rewrite Ht, Hk. reflexivity. }
    split; [|split].
    + apply Forall_app. split; [|constructor].
      * rewrite Forall_forall in Hc1, Hall |- *. intros e Hin.
        apply stat_counts_skip; [|apply Hc1; exact Hin].
        unfold same_question. fold qid. rewrite Ht, (Hall e Hin). reflexivity.
      * apply stat_counts_hit; assumption.
      * rewrite Forall_forall in Hc3, Hs2 |- *. intros e Hin.
        apply stat_counts_skip; [|apply Hc3; exact Hin].
        unfold same_question. fold qid. rewrite Ht, (Hs2 e Hin). reflexivity.
    + exact Hd.
    + apply Forall_app. split; [exact Hcov|]. constructor; [|constructor].
      intros _. apply Exists_app. right. constructor. exact Hk.
Qed.

(** *** The whole loop *)

Lemma collect_stats_inv (rest done : list json) (stats stats' : list (json * stat)) :
  collect_stats rest stats = Ok stats' ->
  stats_inv done stats ->
  stats_inv (done ++ rest) stats'.
Proof.
  revert done stats. induction rest as [|a rest IH]; intros done stats Hrun Hinv.
  - simpl in Hrun. inversion Hrun; subst. rewrite app_nil_r. exact Hinv.
  - simpl in Hrun. destruct a as [| | | | | |m]; try discriminate Hrun.
    simpl as_dict in Hrun. simpl bind in Hrun. cbv zeta in Hrun.
    change (dict_get_default m "question_id" JNull) with (qid_of (JObj m)) in Hrun.
    replace (done ++ JObj m :: rest) with ((done ++ [JObj m]) ++ rest)
      by (rewrite <- app_assoc; reflexivity).
    destruct (py_truthy (qid_of (JObj m))) eqn:Et; cbn [negb] in Hrun.
    + destruct (hashable (qid_of (JObj m))) eqn:Eh; cbn [negb] in Hrun;
        [|discriminate Hrun].
      apply (IH _ _ Hrun). apply stats_inv_update; assumption.
    + apply (IH _ _ Hrun). apply stats_inv_skip; assumption.
Qed.


Lemma stats_inv_nil : stats_inv [] [].
Proof. repeat split; constructor. Qed.

(** The attempts of a topic, whenever the comprehension returns. *)
Lemma comprehension_for_topic (topic : string) (l A : list json) :
  comprehension
    (fun a => t <- py_get a "topic" JNull ;; Ok (py_eq_str t topic))
    (fun a => Ok a) l = Ok A ->
  A = for_topic topic l /\ forallb isinstance_dict l = true.
Proof.
  revert A. induction l as [|a l IH]; intros A H.
  - inversion H. split; reflexivity.
  - destruct a as [| | | | | |m]; try discriminate.
    simpl in H. unfold for_topic. simpl filter.
    change (py_eq_str (field (JObj m) "topic") topic)
      with (py_eq_str (dict_get_default m "topic" JNull) topic).
    destruct (py_eq_str (dict_get_default m "topic" JNull) topic).
    + destruct (comprehension _ _ l) as [r|] eqn:E; [|discriminate].
      simpl in H. inversion H; subst A.
      destruct (IH r eq_refl) as [-> Hl]. split; [reflexivity|exact Hl].
    + destruct (IH A H) as [-> Hl]. split; [reflexivity|exact Hl].
Qed.

Lemma entries_for_topic_attempts (m : dict) (topic : string) (A : list json) :
  entries_for_topic (JObj m) "attempts" topic = Ok A ->
  A = for_topic topic (attempts_of (Stored (JObj m))).
Proof.
  unfold entries_for_topic. simpl py_get. simpl bind.
  rewrite attempts_of_dict. unfold dict_get_default.
  destruct (dict_get m "attempts") as [raw|].
  - destruct raw as [| | | |s|l|m0]; try discriminate; simpl py_iter; simpl bind.
    + destruct s as [|c s]; simpl; [intros H; inversion H; reflexivity|discriminate].
    + intros H. apply comprehension_for_topic in H. tauto.
    + destruct m0 as [|[k v] m0]; simpl;
        [intros H; inversion H; reflexivity|discriminate].
  - simpl. intros H. inversion H. reflexivity.
Qed.

(** *** The returned records *)

Lemma count_if_nonneg (P : json -> bool) (l : list json) : 0 <= count_if P l.
Proof. unfold count_if. lia. Qed.

Lemma count_if_and_le (P Q : json -> bool) (l : list json) :
  count_if (fun a => P a && Q a) l <= count_if P l.
Proof.
  unfold count_if. induction l as [|a l IH]; simpl; [lia|].
  destruct (P a); simpl; [destruct (Q a); simpl; lia|lia].
Qed.

Lemma make_items_ok (A : list json) (stats : list (json * stat)) (min_attempts : Z) :
  Forall (stat_counts A) stats ->
  Forall (item_ok A min_attempts) (make_items stats min_attempts).
Proof.
  induction stats as [|[k st] stats IH]; intros H; simpl; [constructor|].
  inversion H as [|? ? Hst Hrest]; subst.
  destruct (Z.ltb_spec (st_attempts st) min_attempts) as [Hlt|Hge]; simpl;
    [apply IH; exact Hrest|].
  destruct (Z.eqb_spec (st_incorrect st) 0) as [Hz|Hnz];
    [apply IH; exact Hrest|].
  constructor; [|apply IH; exact Hrest].
  destruct Hst as (_ & _ & Ha & Hc & Hi). simpl fst in *. simpl snd in *.
  unfold item_ok. simpl.
  split; [exact Hnz|]. split; [exact Hge|].
  split; [exists k; auto|].
  split; [|reflexivity].
  pose proof (count_if_and_le (same_question k) (fun a => negb (is_correct a)) A).
  pose proof (count_if_nonneg
                (fun a => same_question k a && negb (is_correct a)) A).
  cbv beta in *. lia.
Qed.

Lemma sort_desc_Forall (P : missed -> Prop) (l : list missed) :
  Forall P l -> Forall P (sort_desc l).
Proof. apply Permutation_Forall. apply sort_desc_perm. Qed.

(** What [get_frequently_missed] returns, whenever it returns. *)
Lemma frequently_missed_result (f : file) (topic : string) (min_attempts limit : Z)
  (items : list missed) :
  fst (get_frequently_missed topic min_attempts limit f) = Ok items ->
  exists ranked,
    items = slice_to ranked limit /\
    Sorted triple_ge ranked /\
    Forall (item_ok (for_topic topic (attempts_of f)) min_attempts) ranked.
Proof.
  unfold get_frequently_missed, bindM, lift.
  destruct f as [| |data]; simpl; try discriminate.
  unfold frequently_missed_of.
  destruct data as [| | | | | |m]; try discriminate.
  destruct (entries_for_topic (JObj m) "attempts" topic) as [A|] eqn:EA;
    [simpl bind|discriminate].
  apply entries_for_topic_attempts in EA.
  destruct A as [|a A].
  - intros H. inversion H; subst. exists []. repeat split; try constructor.
    unfold slice_to. destruct (0 <=? limit); destruct (Z.to_nat limit); reflexivity.
  - destruct (collect_stats (a :: A) []) as [stats|] eqn:Est; [simpl bind|discriminate].
    intros H. inversion H; subst items. clear H.
    pose proof (collect_stats_inv _ [] _ _ Est stats_inv_nil) as (Hc & _).
    simpl app in Hc. rewrite EA in Hc.
    eexists. split; [reflexivity|]. split; [apply sort_desc_sorted|].
    apply sort_desc_Forall. apply make_items_ok. exact Hc.
Qed.




(** The end-to-end example of the specification, continued: the question
    is reported with 3 attempts, 1 correct, 2 incorrect, error rate 2/3. *)
Example entropy_frequently_missed :
  exists r,
    fst (get_frequently_missed "Thermo" 1 5 entropy_store) = Ok [r] /\
    prompt r = JStr example_prompt /\
    attempts r = 3 /\ correct r = 1 /\ incorrect r = 2 /\
    (error_rate r == 2 # 3)%Q /\
    avg_response_ms r = Some 2000.
Proof.
  eexists. split; [vm_compute; reflexivity|]. repeat split.
Qed.

Example three_questions_ranking :
  option_map (map prompt)
    match fst (get_frequently_missed "Thermo" 1 5 three_questions) with
    | Ok items => Some items
    | Raise _ => None
    end
  = Some [JStr "Q three"; JStr "Q two"; JStr "Q one"].
Proof. vm_compute. reflexivity. Qed.




(** ** Question identifiers *)

Lemma split_cons (x : ascii) (rest : string) :
  split (String x rest) =
  if isspace x then split rest
  else if starts_word rest
       then match split rest with
            | w :: ws => String x w :: ws
            | [] => [String x EmptyString]
            end
       else String x EmptyString :: split rest.
Proof.
  simpl. destruct (isspace x); [reflexivity|].
  destruct rest as [|d rest']; [reflexivity|].
  simpl starts_word. destruct (isspace d); reflexivity.
Qed.



Lemma split_lstrip (s : string) : split (lstrip s) = split s.
Proof.
  induction s as [|c s IH]; [reflexivity|].
  simpl lstrip. rewrite split_cons.
  destruct (isspace c) eqn:E; [exact IH|].
  rewrite split_cons, E. reflexivity.
Qed.

Lemma rstrip_starts_word (s : string) : starts_word (rstrip s) = starts_word s.
Proof.
  destruct s as [|d t]; [reflexivity|]. simpl.
  destruct (rstrip t); [destruct (isspace d) eqn:E; simpl; rewrite ?E|]; reflexivity.
Qed.

Lemma split_cons_cong (x : ascii) (r1 r2 : string) :
  starts_word r1 = starts_word r2 ->
  split r1 = split r2 ->
  split (String x r1) = split (String x r2).
Proof. intros Hs Hw. rewrite !split_cons, Hs, Hw. reflexivity. Qed.

Lemma split_rstrip (s : string) : split (rstrip s) = split s.
Proof.
  induction s as [|c s IH]; [reflexivity|].
  pose proof (rstrip_starts_word s) as Hs.
  simpl rstrip. destruct (rstrip s) as [|d r] eqn:E.
  - destruct (isspace c) eqn:Ec.
    + rewrite split_cons, Ec. exact IH.
    + apply split_cons_cong; assumption.
  - apply split_cons_cong; assumption.
Qed.

Lemma split_strip (s : string) : split (strip s) = split s.
Proof. unfold strip. rewrite split_rstrip. apply split_lstrip. Qed.

Lemma lower_append (a b : string) : lower (a ++ b)%string = (lower a ++ lower b)%string.
Proof. induction a as [|c a IH]; simpl; [|rewrite IH]; reflexivity. Qed.

Lemma lower_join (l : list string) : lower (join " " l) = join " " (map lower l).
Proof.
  induction l as [|w l IH]; [reflexivity|].
  destruct l as [|w' l]; [reflexivity|].
  change (join " " (w :: w' :: l)) with (w ++ " " ++ join " " (w' :: l))%string.
  change (join " " (map lower (w :: w' :: l)))
    with (lower w ++ " " ++ join " " (map lower (w' :: l)))%string.
  rewrite !lower_append, IH. reflexivity.
Qed.

Lemma normalize_lower_words (p : string) :
  normalize p = join " " (lower_words p).
Proof.
  unfold normalize, lower_words. rewrite split_strip. apply lower_join.
Qed.




Section QuestionId.

Variable sha256_hexdigest : string -> string.


End QuestionId.

Example normalize_example :
  normalize "   What  is	ENTROPY? " = "what is entropy?".
Proof. vm_compute. reflexivity. Qed.


(** * Further properties of the store *)

(** ** The constructor, applied again *)

Lemma repair_key_present (k : string) (T : json -> bool) (empty : json)
  (data : dict) (changed : bool) (v : json) :
  dict_get data k = Some v -> T v = true ->
  repair_key k T empty (data, changed) = (data, changed).
Proof. intros Hk HT. unfold repair_key. rewrite Hk, HT. reflexivity. Qed.

Lemma init_noop_dict (m : dict) :
  shape_ok (Stored (JObj m)) = true ->
  __init__ (Stored (JObj m)) = (Ok tt, Stored (JObj m)).
Proof.
  unfold shape_ok. simpl stored_key.
  destruct (dict_get m "sessions") as [[| | | | |ls|]|] eqn:Es; try discriminate.
  destruct (dict_get m "attempts") as [[| | | | |la|]|] eqn:Ea; try discriminate.
  destruct (dict_get m "questions") as [[| | | | | |qs]|] eqn:Eq; try discriminate.
  intros _.
  change (__init__ (Stored (JObj m))) with
    ((let '(data, changed) :=
       repair_key "questions" isinstance_dict (JObj [])
         (repair_key "attempts" isinstance_list (JArr [])
            (repair_key "sessions" isinstance_list (JArr []) (m, false))) in
     if changed then _write (JObj data) else ret tt) (Stored (JObj m))).
  rewrite (repair_key_present "sessions" _ _ m false _ Es eq_refl).
  rewrite (repair_key_present "attempts" _ _ m false _ Ea eq_refl).
  rewrite (repair_key_present "questions" _ _ m false _ Eq eq_refl).
  reflexivity.
Qed.

Lemma repaired_isinstance (T : json -> bool) (empty : json) (old : option json) :
  T empty = true -> T (repaired T empty old) = true.
Proof.
  intros He. unfold repaired. destruct old as [v|]; [|exact He].
  destruct (T v) eqn:E; [exact E|exact He].
Qed.

Lemma init_shape_ok (f : file) : shape_ok (snd (__init__ f)) = true.
Proof.
  destruct (init_lookup f) as (data & -> & Hk).
  unfold shape_ok. simpl snd. simpl stored_key. rewrite !Hk.
  unfold after_repair. eqb_lit.
  pose proof (repaired_isinstance isinstance_list (JArr [])
                (stored_key f "sessions") eq_refl) as Hs.
  pose proof (repaired_isinstance isinstance_list (JArr [])
                (stored_key f "attempts") eq_refl) as Ha.
  pose proof (repaired_isinstance isinstance_dict (JObj [])
                (stored_key f "questions") eq_refl) as Hq.
  destruct (repaired isinstance_list (JArr []) (stored_key f "sessions"));
    try discriminate.
  destruct (repaired isinstance_list (JArr []) (stored_key f "attempts"));
    try discriminate.
  destruct (repaired isinstance_dict (JObj []) (stored_key f "questions"));
    try discriminate.
  reflexivity.
Qed.

(** X1. Constructing the store a second time changes nothing: the file
    the constructor leaves is a fixed point of the constructor.  On a
    file whose three collections are present with the right container
    types the constructor does not write at all, so the document, with
    its key order and its other keys, is the stored one. *)
Theorem init_idempotent (f : file) :
  __init__ (snd (__init__ f)) = (Ok tt, snd (__init__ f)) /\
  (shape_ok f = true -> __init__ f = (Ok tt, f)).
Proof.
  assert (Hnoop : forall g, shape_ok g = true -> __init__ g = (Ok tt, g)).
  { intros g Hg. destruct g as [| |[| | | | | |m]]; try discriminate.
    apply init_noop_dict. exact Hg. }
  split; [|apply Hnoop].
  apply Hnoop. apply init_shape_ok.
Qed.

Lemma init_idempotent_witness :
  __init__ after_first_attempt = (Ok tt, after_first_attempt).
Proof. apply (init_idempotent after_first_attempt). reflexivity. Defined.

(** ** The session log *)

Lemma sessions_of_dict (m : dict) :
  sessions_of (Stored (JObj m)) =
  match dict_get m "sessions" with Some (JArr l) => l | _ => [] end.
Proof. reflexivity. Qed.

Lemma session_update_spec (m : dict) (ts topic : string) (score details : json) :
  match session_update (JObj m) ts topic score details with
  | Ok d' =>
      sessions_writable (Stored (JObj m)) = true /\
      d' = JObj (dict_set (dict_setdefault m "sessions" (JArr [])) "sessions"
                   (JArr (sessions_of (Stored (JObj m))
                          ++ [session_entry ts topic score details])))
  | Raise _ => sessions_writable (Stored (JObj m)) = false
  end.
Proof.
  unfold session_update, sessions_writable. simpl as_dict. simpl bind.
  unfold list_at. rewrite dict_get_setdefault. eqb_lit.
  rewrite sessions_of_dict. unfold dict_get_default.
  destruct (dict_get m "sessions") as [[]|]; simpl; auto.
Qed.

Lemma log_session_effect (f : file) (ts topic : string) (score details : json) :
  is_ok (fst (log_session ts topic score details f)) = sessions_writable f /\
  match log_session ts topic score details f with
  | (Ok _, f') =>
      sessions_of f' = sessions_of f ++ [session_entry ts topic score details] /\
      forall k, k <> "sessions" -> stored_key f' k = stored_key f k
  | (Raise _, f') => f' = f
  end.
Proof.
  unfold log_session, bindM, lift.
  destruct f as [| |data]; simpl; auto.
  destruct data as [| | | | | |m]; simpl; auto.
  pose proof (session_update_spec m ts topic score details) as H.
  destruct (session_update (JObj m) ts topic score details) as [d'|e].
  - destruct H as [Hw ->]. simpl. split; [symmetry; exact Hw|].
    split.
    + rewrite sessions_of_dict, dict_get_set_same. reflexivity.
    + intros k Hk. rewrite dict_get_set_other by congruence.
      rewrite dict_get_setdefault.
      destruct (String.eqb_spec "sessions" k); [congruence|reflexivity].
  - simpl. split; [symmetry; exact H|reflexivity].
Qed.



(** ** What one attempt does to the question index *)

Section Aggregate.

Variable sha256_hexdigest : string -> string.
Variable int_of_str : string -> option Z.

(** A returning [log_attempt], taken apart. *)
Lemma log_attempt_returns (f f' : file) (ts topic prompt answer : string)
  (correct response_ms : json) :
  log_attempt sha256_hexdigest int_of_str ts topic prompt answer
    correct response_ms f = (Ok tt, f') ->
  exists q q',
    aggregate_before f (question_id sha256_hexdigest prompt) prompt = JObj q /\
    update_question int_of_str (JObj q) ts topic answer correct response_ms = Ok q' /\
    question_record f' (question_id sha256_hexdigest prompt) = Some (JObj q') /\
    forall k, k <> question_id sha256_hexdigest prompt ->
      question_record f' k = question_record f k.
Proof.
  unfold log_attempt, bindM, lift.
  destruct f as [| |data]; simpl; try discriminate.
  destruct (attempt_update sha256_hexdigest int_of_str data ts topic prompt answer
              correct response_ms) as [d'|] eqn:Eupd; [|discriminate].
  simpl. intros H. inversion H; subst f'; clear H.
  revert Eupd. unfold attempt_update.
  destruct data as [| | | | | |m]; try discriminate. simpl as_dict. simpl bind.
  destruct (make_attempt_entry int_of_str ts topic _ prompt answer correct response_ms)
    as [entry|]; [simpl bind|discriminate].
  destruct (list_at _ "attempts") as [attempts|]; [simpl bind|discriminate].
  lookup. rewrite dict_get_default_setdefault_other by discriminate.
  destruct (dict_get_default m "questions" (JObj [])) as [| | | | | |qs] eqn:Eqs;
    try discriminate.
  simpl as_dict. simpl bind.
  assert (Hbefore :
    dict_get_default qs (question_id sha256_hexdigest prompt) (JObj (new_question prompt))
    = aggregate_before (Stored (JObj m)) (question_id sha256_hexdigest prompt) prompt).
  { unfold aggregate_before, question_record, stored_key, dict_get_default in *.
    destruct (dict_get m "questions") as [v|]; [subst v; reflexivity|].
    inversion Eqs; subst qs. reflexivity. }
  rewrite Hbefore.
  destruct (update_question int_of_str _ ts topic answer correct response_ms)
    as [q'|] eqn:Eq; [simpl bind|discriminate].
  intros H. inversion H; subst d'; clear H.
  assert (Hq : exists q,
    aggregate_before (Stored (JObj m)) (question_id sha256_hexdigest prompt) prompt
    = JObj q).
  { destruct (aggregate_before _ _ _); try discriminate. eexists; reflexivity. }
  destruct Hq as [q Hq]. rewrite Hq in Eq.
  exists q, q'. split; [exact Hq|]. split; [exact Eq|].
  unfold question_record, stored_key. lookup.
  split; [apply dict_get_set_same|].
  intros k Hk. rewrite dict_get_set_other by congruence.
  unfold dict_get_default in Eqs.
  destruct (dict_get m "questions") as [v|]; [subst v; reflexivity|].
  inversion Eqs; reflexivity.
Qed.

(** A returning update of an aggregate, field by field. *)
Lemma update_question_fields (q q' : dict) (ts topic answer : string)
  (correct response_ms : json) :
  update_question int_of_str (JObj q) ts topic answer correct response_ms = Ok q' ->
  exists prev_n items strs,
    py_int int_of_str (dict_get_default q "times_asked" (JInt 0)) = Ok prev_n /\
    py_iter (dict_get_default q "topics" (JArr [])) = Ok items /\
    topic_strings items = Ok strs /\
    dict_get q' "times_asked" = Some (JInt (prev_n + 1)) /\
    dict_get q' "last_answer" = Some (JStr answer) /\
    dict_get q' "last_correct" = Some (JBool (py_truthy correct)) /\
    dict_get q' "last_timestamp" = Some (JStr ts) /\
    dict_get q' "topics" = Some (JArr (map JStr (sorted_set (topic :: strs)))) /\
    dict_get q' "prompt" = dict_get q "prompt" /\
    match response_ms with
    | JNull =>
        dict_get q' "last_response_ms" = dict_get q "last_response_ms" /\
        dict_get q' "avg_response_ms" = dict_get q "avg_response_ms"
    | _ =>
        exists ms,
          py_int int_of_str response_ms = Ok ms /\
          dict_get q' "last_response_ms" = Some (JInt ms) /\
          dict_get q' "avg_response_ms" = Some (JInt (next_avg (avg_of q) prev_n ms))
    end.
Proof.
  unfold update_question. simpl py_get. simpl bind.
  destruct (py_int int_of_str (dict_get_default q "times_asked" (JInt 0)))
    as [prev_n|] eqn:En; [simpl bind|discriminate].
  unfold dict_get_default at 1. lookup. fold (dict_get_default q "topics" (JArr [])).
  destruct (py_iter (dict_get_default q "topics" (JArr []))) as [items|] eqn:Ei;
    [simpl bind|discriminate].
  destruct (topic_strings items) as [strs|] eqn:Es; [simpl bind|discriminate].
  intros H. exists prev_n, items, strs.
  split; [reflexivity|]. split; [reflexivity|]. split; [exact Es|].
  destruct (py_int int_of_str response_ms) as [ms|e] eqn:Ems.
  - destruct response_ms; simpl bind in H; inversion H; subst q'; clear H;
      do 6 (split; [lookup; reflexivity|]);
      first [ exists ms; split; [reflexivity|]; split; [lookup; reflexivity|];
              unfold avg_of, dict_get_default; lookup; reflexivity
            | split; lookup; reflexivity ].
  - destruct response_ms; simpl bind in H; try discriminate H.
    inversion H; subst q'; clear H.
    do 6 (split; [lookup; reflexivity|]). split; lookup; reflexivity.
Qed.

End Aggregate.

(** ** Sorted sets of topics *)

Lemma set_insert_in (s x : string) (l : list string) :
  In x (set_insert s l) <-> x = s \/ In x l.
Proof.
  induction l as [|y l IH]; simpl.
  - intuition congruence.
  - destruct (String.compare s y) eqn:E; simpl.
    + apply String.compare_eq_iff in E. subst y. intuition congruence.
    + intuition congruence.
    + rewrite IH. intuition congruence.
Qed.

Lemma sorted_set_in (x : string) (l : list string) :
  In x (sorted_set l) <-> In x l.
Proof.
  induction l as [|s l IH]; simpl; [reflexivity|].
  rewrite set_insert_in, IH. intuition congruence.
Qed.

Lemma set_insert_sorted (s : string) (l : list string) :
  strictly_sorted l -> strictly_sorted (set_insert s l).
Proof.
  unfold strictly_sorted. induction l as [|y l IH]; simpl; intros Hl.
  - repeat constructor.
  - destruct (String.compare s y) eqn:E.
    + exact Hl.
    + constructor; [exact Hl|]. constructor. exact E.
    + apply Sorted_inv in Hl. destruct Hl as [Hl Hhd].
      constructor; [apply IH; exact Hl|].
      assert (Hys : String.compare y s = Lt).
      { rewrite String.compare_antisym, E. reflexivity. }
      destruct l as [|z l]; simpl; [constructor; exact Hys|].
      destruct (String.compare s z); constructor; auto; inversion Hhd; auto.
Qed.

Lemma sorted_set_sorted (l : list string) : strictly_sorted (sorted_set l).
Proof.
  induction l as [|s l IH]; simpl; [constructor|].
  apply set_insert_sorted. exact IH.
Qed.

Lemma strings_of_map (l : list string) : strings_of (map JStr l) = l.
Proof. induction l as [|s l IH]; simpl; [|rewrite IH]; reflexivity. Qed.

Lemma topic_strings_strings_of (items : list json) (strs : list string) :
  topic_strings items = Ok strs -> strings_of items = strs.
Proof.
  revert strs. induction items as [|x items IH]; intros strs H.
  - inversion H. reflexivity.
  - destruct x; try discriminate. simpl in H.
    destruct (topic_strings items) as [r|]; [|discriminate].
    simpl in H. inversion H; subst. simpl. rewrite (IH r eq_refl). reflexivity.
Qed.

Section AggregateFields.

Variable sha256_hexdigest : string -> string.
Variable int_of_str : string -> option Z.

(** X4. After a [log_attempt] that returns, the aggregate of the
    question has its counter raised by exactly one and carries the answer,
    the truth value of [correct] and the timestamp of this call.  A call
    without [response_ms] leaves "last_response_ms" and "avg_response_ms"
    as they were. *)
Theorem log_attempt_updates_aggregate (f f' : file)
  (ts topic prompt answer : string) (correct response_ms : json) :
  log_attempt sha256_hexdigest int_of_str ts topic prompt answer
    correct response_ms f = (Ok tt, f') ->
  exists q q' n,
    aggregate_before f (question_id sha256_hexdigest prompt) prompt = JObj q /\
    question_record f' (question_id sha256_hexdigest prompt) = Some (JObj q') /\
    py_int int_of_str (dict_get_default q "times_asked" (JInt 0)) = Ok n /\
    dict_get q' "times_asked" = Some (JInt (n + 1)) /\
    dict_get q' "last_answer" = Some (JStr answer) /\
    dict_get q' "last_correct" = Some (JBool (py_truthy correct)) /\
    dict_get q' "last_timestamp" = Some (JStr ts) /\
    (response_ms = JNull ->
     dict_get q' "last_response_ms" = dict_get q "last_response_ms" /\
     dict_get q' "avg_response_ms" = dict_get q "avg_response_ms").
Proof.
  intros Hrun.
  destruct (log_attempt_returns sha256_hexdigest int_of_str _ _ _ _ _ _ _ _ Hrun)
    as (q & q' & Hbefore & Hupd & Hrec & _).
  destruct (update_question_fields int_of_str _ _ _ _ _ _ _ Hupd)
    as (n & items & strs & Hn & _ & _ & H1 & H2 & H3 & H4 & _ & _ & Hms).
  exists q, q', n. repeat (split; [assumption|]).
  intros ->. exact Hms.
Qed.

(** X5. [log_attempt] never rewrites the prompt of an aggregate: a
    question that is already in the index keeps the prompt text stored
    with it, whatever the spelling of the prompt of the new call, and a
    question that is new gets the prompt of the call. *)
Theorem log_attempt_keeps_first_prompt (f f' : file)
  (ts topic prompt answer : string) (correct response_ms : json) :
  log_attempt sha256_hexdigest int_of_str ts topic prompt answer
    correct response_ms f = (Ok tt, f') ->
  exists q',
    question_record f' (question_id sha256_hexdigest prompt) = Some (JObj q') /\
    match question_record f (question_id sha256_hexdigest prompt) with
    | Some old => dict_get q' "prompt" = match old with
                                         | JObj q => dict_get q "prompt"
                                         | _ => None
                                         end
    | None => dict_get q' "prompt" = Some (JStr prompt)
    end.
Proof.
  intros Hrun.
  destruct (log_attempt_returns sha256_hexdigest int_of_str _ _ _ _ _ _ _ _ Hrun)
    as (q & q' & Hbefore & Hupd & Hrec & _).
  destruct (update_question_fields int_of_str _ _ _ _ _ _ _ Hupd)
    as (n & items & strs & _ & _ & _ & _ & _ & _ & _ & _ & Hp & _).
  exists q'. split; [exact Hrec|].
  unfold aggregate_before in Hbefore.
  destruct (question_record f (question_id sha256_hexdigest prompt)) as [old|].
  - subst old. exact Hp.
  - inversion Hbefore; subst q. exact Hp.
Qed.

(** X6. After a [log_attempt] that returns, the topics of the aggregate
    are exactly the topics it had together with the topic of the call, in
    strictly ascending order, so without duplicates. *)
Theorem log_attempt_merges_topic (f f' : file)
  (ts topic prompt answer : string) (correct response_ms : json) :
  log_attempt sha256_hexdigest int_of_str ts topic prompt answer
    correct response_ms f = (Ok tt, f') ->
  exists q q',
    aggregate_before f (question_id sha256_hexdigest prompt) prompt = JObj q /\
    question_record f' (question_id sha256_hexdigest prompt) = Some (JObj q') /\
    dict_get q' "topics" = Some (JArr (map JStr (topics_of q'))) /\
    strictly_sorted (topics_of q') /\
    forall t, In t (topics_of q') <-> t = topic \/ In t (topics_of q).
Proof.
  intros Hrun.
  destruct (log_attempt_returns sha256_hexdigest int_of_str _ _ _ _ _ _ _ _ Hrun)
    as (q & q' & Hbefore & Hupd & Hrec & _).
  destruct (update_question_fields int_of_str _ _ _ _ _ _ _ Hupd)
    as (n & items & strs & _ & Hitems & Hstrs & _ & _ & _ & _ & Ht & _).
  exists q, q'. split; [exact Hbefore|]. split; [exact Hrec|].
  assert (Hq' : topics_of q' = sorted_set (topic :: strs)).
  { unfold topics_of, dict_get_default. rewrite Ht. simpl py_iter.
    apply strings_of_map. }
  assert (Hq : topics_of q = strs).
  { unfold topics_of. rewrite Hitems. apply topic_strings_strings_of. exact Hstrs. }
  rewrite Hq', Hq. split; [exact Ht|]. split; [apply sorted_set_sorted|].
  intros t. rewrite sorted_set_in. simpl. intuition congruence.
Qed.

Lemma log_attempt_frame_keys (f f' : file)
  (ts topic prompt answer : string) (correct response_ms : json) :
  log_attempt sha256_hexdigest int_of_str ts topic prompt answer
    correct response_ms f = (Ok tt, f') ->
  (forall k, k <> question_id sha256_hexdigest prompt ->
     question_record f' k = question_record f k) /\
  (forall k, k <> "attempts" -> k <> "questions" ->
     stored_key f' k = stored_key f k).
Proof.
  intros Hrun. split.
  - destruct (log_attempt_returns sha256_hexdigest int_of_str _ _ _ _ _ _ _ _ Hrun)
      as (q & q' & _ & _ & _ & Hother). exact Hother.
  - revert Hrun. unfold log_attempt, bindM, lift.
    destruct f as [| |data]; simpl; try discriminate.
    destruct (attempt_update sha256_hexdigest int_of_str data ts topic prompt answer
                correct response_ms) as [d'|] eqn:Eupd; [|discriminate].
    simpl. intros H. inversion H; subst f'; clear H.
    destruct (attempt_update_frame _ _ _ _ _ _ _ _ _ _ Eupd)
      as (m & m' & entry & -> & -> & _ & _ & Hk).
    intros k Ha Hq. simpl. apply Hk; assumption.
Qed.

(** X7. A [log_attempt] that returns touches one aggregate only: every
    other question of the index, and every top-level key other than
    "attempts" and "questions", is as it was. *)
Theorem log_attempt_frame (f f' : file)
  (ts topic prompt answer : string) (correct response_ms : json) :
  log_attempt sha256_hexdigest int_of_str ts topic prompt answer
    correct response_ms f = (Ok tt, f') ->
  (forall k, k <> question_id sha256_hexdigest prompt ->
     question_record f' k = question_record f k) /\
  (forall k, k <> "attempts" -> k <> "questions" ->
     stored_key f' k = stored_key f k).
Proof. apply log_attempt_frame_keys. Qed.

End AggregateFields.

Lemma first_attempt_returns :
  first_attempt (JBool false) (JInt 1200) empty_store = (Ok tt, after_first_attempt).
Proof. vm_compute. reflexivity. Qed.

Lemma second_attempt_returns :
  second_attempt after_first_attempt = (Ok tt, after_second_attempt).
Proof. vm_compute. reflexivity. Qed.

Lemma log_attempt_updates_aggregate_witness :
  exists q q' n,
    aggregate_before after_first_attempt
      (question_id example_digest "  what is   ENTROPY? ") "  what is   ENTROPY? "
      = JObj q /\
    question_record after_second_attempt
      (question_id example_digest "  what is   ENTROPY? ") = Some (JObj q') /\
    py_int example_int_of_str (dict_get_default q "times_asked" (JInt 0)) = Ok n /\
    dict_get q' "times_asked" = Some (JInt (n + 1)) /\
    dict_get q' "last_answer" = Some (JStr "a measure of disorder") /\
    dict_get q' "last_correct" = Some (JBool (py_truthy (JBool true))) /\
    dict_get q' "last_timestamp" = Some (JStr "2024-05-02T09:30:00Z") /\
    (JNull = JNull ->
     dict_get q' "last_response_ms" = dict_get q "last_response_ms" /\
     dict_get q' "avg_response_ms" = dict_get q "avg_response_ms").
Proof.
  apply (log_attempt_updates_aggregate example_digest example_int_of_str
           after_first_attempt after_second_attempt
           "2024-05-02T09:30:00Z" "Entropy" "  what is   ENTROPY? "
           "a measure of disorder" (JBool true) JNull).
  exact second_attempt_returns.
Defined.

Lemma log_attempt_keeps_first_prompt_witness :
  exists q',
    question_record after_second_attempt
      (question_id example_digest "  what is   ENTROPY? ") = Some (JObj q') /\
    match question_record after_first_attempt
            (question_id example_digest "  what is   ENTROPY? ") with
    | Some old => dict_get q' "prompt" = match old with
                                         | JObj q => dict_get q "prompt"
                                         | _ => None
                                         end
    | None => dict_get q' "prompt" = Some (JStr "  what is   ENTROPY? ")
    end.
Proof.
  apply (log_attempt_keeps_first_prompt example_digest example_int_of_str
           after_first_attempt after_second_attempt
           "2024-05-02T09:30:00Z" "Entropy" "  what is   ENTROPY? "
           "a measure of disorder" (JBool true) JNull).
  exact second_attempt_returns.
Defined.

(** The second spelling of the prompt is not stored: the aggregate still
    shows the first one, under both topics. *)
Example second_spelling_not_stored :
  exists q,
    question_record after_second_attempt example_qid = Some (JObj q) /\
    dict_get q "prompt" = Some (JStr example_prompt) /\
    dict_get q "times_asked" = Some (JInt 2) /\
    dict_get q "topics" = Some (JArr [JStr "Entropy"; JStr "Thermo"]).
Proof. eexists. split; [vm_compute; reflexivity|]. repeat split. Qed.

Lemma log_attempt_merges_topic_witness :
  exists q q',
    aggregate_before after_first_attempt
      (question_id example_digest "  what is   ENTROPY? ") "  what is   ENTROPY? "
      = JObj q /\
    question_record after_second_attempt
      (question_id example_digest "  what is   ENTROPY? ") = Some (JObj q') /\
    dict_get q' "topics" = Some (JArr (map JStr (topics_of q'))) /\
    strictly_sorted (topics_of q') /\
    forall t, In t (topics_of q') <-> t = "Entropy" \/ In t (topics_of q).
Proof.
  apply (log_attempt_merges_topic example_digest example_int_of_str
           after_first_attempt after_second_attempt
           "2024-05-02T09:30:00Z" "Entropy" "  what is   ENTROPY? "
           "a measure of disorder" (JBool true) JNull).
  exact second_attempt_returns.
Defined.

Lemma log_attempt_frame_witness :
  (forall k, k <> question_id example_digest "  what is   ENTROPY? " ->
     question_record after_second_attempt k = question_record after_first_attempt k) /\
  (forall k, k <> "attempts" -> k <> "questions" ->
     stored_key after_second_attempt k = stored_key after_first_attempt k).
Proof.
  apply (log_attempt_frame example_digest example_int_of_str
           after_first_attempt after_second_attempt
           "2024-05-02T09:30:00Z" "Entropy" "  what is   ENTROPY? "
           "a measure of disorder" (JBool true) JNull).
  exact second_attempt_returns.
Defined.

(** ** Stores that stay usable *)

Section Healthy.

Variable sha256_hexdigest : string -> string.
Variable int_of_str : string -> option Z.





End Healthy.


(** ** Exclusions after an attempt *)

(** One comprehension keeps what another keeps. *)
Lemma comprehension_incl (cond1 cond2 : json -> result bool) (recs : list json) :
  (forall rec,
     match cond1 rec with
     | Ok true => cond2 rec = Ok true /\ is_ok (prompt_of rec) = true
     | Ok false => is_ok (cond2 rec) = true /\ is_ok (prompt_of rec) = true
     | Raise e => cond2 rec = Raise e \/
                  (cond2 rec = Ok true /\ prompt_of rec = Raise e)
     end) ->
  match comprehension cond1 prompt_of recs with
  | Ok c => exists a, comprehension cond2 prompt_of recs = Ok a /\ incl c a
  | Raise e => comprehension cond2 prompt_of recs = Raise e
  end.
Proof.
  intros Hpt. induction recs as [|rec recs IH]; simpl.
  - exists []. split; [reflexivity|apply incl_refl].
  - pose proof (Hpt rec) as H.
    destruct (cond1 rec) as [[|]|e]; simpl.
    + destruct H as [Ht Hp]. rewrite Ht. simpl.
      destruct (prompt_of rec) as [p|]; [simpl|discriminate].
      destruct (comprehension cond1 prompt_of recs) as [c|e]; simpl.
      * destruct IH as [a [Ha Hincl]]. rewrite Ha. simpl.
        exists (p :: a). split; [reflexivity|].
        intros x [<-|Hx]; [left; reflexivity|right; auto].
      * rewrite IH. reflexivity.
    + destruct H as [Ht Hp].
      destruct (cond2 rec) as [[|]|]; [| |discriminate]; simpl.
      * destruct (prompt_of rec) as [p|]; [simpl|discriminate].
        destruct (comprehension cond1 prompt_of recs) as [c|e].
        -- destruct IH as [a [Ha Hincl]]. rewrite Ha. simpl.
           exists (p :: a). split; [reflexivity|]. apply incl_tl. exact Hincl.
        -- rewrite IH. reflexivity.
      * exact IH.
    + destruct H as [Ht|[Ht Hp]]; rewrite Ht; simpl; [reflexivity|].
      rewrite Hp. reflexivity.
Qed.

Lemma topic_match_any (t : string) (rec : json) :
  match topic_match (Some t) rec with
  | Ok true => topic_match None rec = Ok true /\ is_ok (prompt_of rec) = true
  | Ok false => is_ok (topic_match None rec) = true /\ is_ok (prompt_of rec) = true
  | Raise e => topic_match None rec = Raise e \/
               (topic_match None rec = Ok true /\ prompt_of rec = Raise e)
  end.
Proof.
  unfold topic_match, prompt_of.
  destruct rec as [| | | | | |m]; simpl; auto.
  destruct (dict_get_default m "topics" (JArr [])); simpl; auto.
  destruct (existsb (fun x => py_eq_str x t) l); auto.
Qed.

Lemma correct_cond_any (t : string) (rec : json) :
  match correct_cond (Some t) rec with
  | Ok true => correct_cond None rec = Ok true /\ is_ok (prompt_of rec) = true
  | Ok false => is_ok (correct_cond None rec) = true /\ is_ok (prompt_of rec) = true
  | Raise e => correct_cond None rec = Raise e \/
               (correct_cond None rec = Ok true /\ prompt_of rec = Raise e)
  end.
Proof.
  unfold correct_cond, topic_match, prompt_of.
  destruct rec as [| | | | | |m]; simpl; auto.
  destruct (is_True (dict_get_default m "last_correct" JNull)); simpl; auto.
  destruct (dict_get_default m "topics" (JArr [])); simpl; auto.
  destruct (existsb (fun x => py_eq_str x t) l); auto.
Qed.

(** X9. A topic filter only removes prompts: in either mode, what
    [get_excluded_prompts] returns for a topic is among what it returns
    without a topic, and the two calls raise on the same files. *)
Theorem excluded_topic_subset (f : file) (mode topic : string) :
  match fst (get_excluded_prompts mode (Some topic) f) with
  | Ok c => exists a, fst (get_excluded_prompts mode None f) = Ok a /\ incl c a
  | Raise e => fst (get_excluded_prompts mode None f) = Raise e
  end.
Proof.
  unfold get_excluded_prompts, bindM, lift.
  destruct (_read f) as [[data|e] f']; simpl; [|reflexivity].
  destruct (String.eqb mode "correct") eqn:E.
  - apply String.eqb_eq in E. subst mode.
    rewrite !excluded_prompts_of_correct.
    destruct (py_get data "questions" (JObj [])) as [questions|e]; simpl;
      [|reflexivity].
    destruct (dict_values_of questions) as [recs|e]; simpl; [|reflexivity].
    apply comprehension_incl. apply correct_cond_any.
  - rewrite !(excluded_prompts_of_other data mode _ E).
    destruct (py_get data "questions" (JObj [])) as [questions|e]; simpl;
      [|reflexivity].
    destruct (dict_values_of questions) as [recs|e]; simpl; [|reflexivity].
    apply comprehension_incl. apply topic_match_any.
Qed.




Section ExcludedAfter.

Variable sha256_hexdigest : string -> string.
Variable int_of_str : string -> option Z.


End ExcludedAfter.


(** ** Accuracy and difficulty *)

Lemma Qdiv_unit_interval (c n : Z) :
  (0 <= c <= n)%Z -> (0 < n)%Z ->
  (0 <= inject_Z c / inject_Z n)%Q /\ (inject_Z c / inject_Z n <= 1)%Q.
Proof.
  intros [Hc Hcn] Hn.
  assert (Hn' : (0 < inject_Z n)%Q)
    by (change 0%Q with (inject_Z 0); rewrite <- Zlt_Qlt; exact Hn).
  split.
  - apply Qle_shift_div_l; [exact Hn'|].
    rewrite Qmult_0_l. change 0%Q with (inject_Z 0). rewrite <- Zle_Qle. exact Hc.
  - apply Qle_shift_div_r; [exact Hn'|].
    rewrite Qmult_1_l. rewrite <- Zle_Qle. exact Hcn.
Qed.

Lemma count_correct_bounds (A : list json) :
  (0 <= count_correct A <= Z.of_nat (List.length A))%Z.
Proof.
  unfold count_correct. split; [lia|].
  apply inj_le. apply filter_length_le.
Qed.

Section Accuracy.

Variable float_of_str : string -> option Q.

(** The accuracy of a topic that has attempts, whenever the query returns. *)
Lemma topic_accuracy_attempts (f : file) (topic : string) (default acc : Q) :
  fst (get_topic_accuracy float_of_str topic default f) = Ok acc ->
  for_topic topic (attempts_of f) <> [] ->
  acc = (inject_Z (count_correct (for_topic topic (attempts_of f)))
         / inject_Z (Z.of_nat (List.length (for_topic topic (attempts_of f)))))%Q.
Proof.
  unfold get_topic_accuracy, bindM, lift.
  destruct f as [| |data]; simpl; try discriminate.
  unfold topic_accuracy_of.
  destruct data as [| | | | | |m]; try discriminate.
  destruct (entries_for_topic (JObj m) "attempts" topic) as [A|] eqn:EA;
    [simpl bind|discriminate].
  apply entries_for_topic_attempts in EA. rewrite <- EA.
  destruct A as [|a A]; [congruence|].
  intros H _. 
  destruct (Z.eqb_spec (Z.of_nat (List.length (a :: A))) 0) as [E|E];
    [simpl in E; lia|].
  inversion H. reflexivity.
Qed.

(** X11. Whenever a topic has attempts, the accuracy
    [get_topic_accuracy] returns is the share of its attempts whose
    "correct" is [True], a number between 0 and 1; the default and the
    sessions play no part. *)
Theorem topic_accuracy_bounded (f : file) (topic : string) (default acc : Q) :
  fst (get_topic_accuracy float_of_str topic default f) = Ok acc ->
  for_topic topic (attempts_of f) <> [] ->
  acc = (inject_Z (Z.of_nat (List.length
                     (filter is_correct (for_topic topic (attempts_of f)))))
         / inject_Z (Z.of_nat (List.length (for_topic topic (attempts_of f)))))%Q /\
  (0 <= acc)%Q /\ (acc <= 1)%Q.
Proof.
  intros Hacc Hne.
  pose proof (topic_accuracy_attempts f topic default acc Hacc Hne) as E.
  split; [rewrite E, count_correct_filter; reflexivity|].
  rewrite E. apply Qdiv_unit_interval.
  - apply count_correct_bounds.
  - destruct (for_topic topic (attempts_of f)); [congruence|]. simpl. lia.
Qed.

Lemma adaptive_difficulty_fst (f : file) (topic : string) :
  fst (get_adaptive_difficulty float_of_str topic f) =
  match fst (get_topic_accuracy float_of_str topic (7 # 10) f) with
  | Ok acc => Ok (if Qltb acc (5 # 10) then "easy"
                  else if Qltb acc (8 # 10) then "medium" else "hard")
  | Raise e => Raise e
  end.
Proof.
  unfold get_adaptive_difficulty, bindM.
  destruct (get_topic_accuracy float_of_str topic (7 # 10) f) as [[a|e] f'];
    simpl; [|reflexivity].
  destruct (Qltb a (5 # 10)); [reflexivity|].
  destruct (Qltb a (8 # 10)); reflexivity.
Qed.

Lemma adaptive_difficulty_of_accuracy (f : file) (topic : string) (acc : Q) :
  fst (get_topic_accuracy float_of_str topic (7 # 10) f) = Ok acc ->
  fst (get_adaptive_difficulty float_of_str topic f) =
  Ok (if Qltb acc (5 # 10) then "easy"
      else if Qltb acc (8 # 10) then "medium" else "hard").
Proof.
  unfold get_adaptive_difficulty, bindM.
  destruct (get_topic_accuracy float_of_str topic (7 # 10) f) as [[a|e] f'];
    simpl; [|discriminate].
  intros H. inversion H; subst a.
  destruct (Qltb acc (5 # 10)); [reflexivity|].
  destruct (Qltb acc (8 # 10)); reflexivity.
Qed.

(** X12. The label never gets easier as the accuracy rises: of two
    queries, on any files and topics, the one with the higher accuracy
    gets a label at least as hard; and a label is always one of "easy",
    "medium" and "hard". *)
Theorem adaptive_difficulty_monotone (f1 f2 : file) (t1 t2 : string) (a1 a2 : Q) :
  fst (get_topic_accuracy float_of_str t1 (7 # 10) f1) = Ok a1 ->
  fst (get_topic_accuracy float_of_str t2 (7 # 10) f2) = Ok a2 ->
  (a1 <= a2)%Q ->
  exists l1 l2,
    fst (get_adaptive_difficulty float_of_str t1 f1) = Ok l1 /\
    fst (get_adaptive_difficulty float_of_str t2 f2) = Ok l2 /\
    is_label l1 /\ is_label l2 /\
    (difficulty_rank l1 <= difficulty_rank l2)%nat.
Proof.
  intros H1 H2 Hle.
  rewrite (adaptive_difficulty_of_accuracy f1 t1 a1 H1).
  rewrite (adaptive_difficulty_of_accuracy f2 t2 a2 H2).
  eexists. eexists. split; [reflexivity|]. split; [reflexivity|].
  unfold is_label. rewrite !Qltb_dec.
  destruct (Qlt_le_dec a1 (5 # 10)); destruct (Qlt_le_dec a2 (5 # 10));
    destruct (Qlt_le_dec a1 (8 # 10)); destruct (Qlt_le_dec a2 (8 # 10));
    try (exfalso; lra);
    (split; [tauto|]; split; [tauto|]; vm_compute; lia).
Qed.

(** X13. Sessions do not count once a topic has attempts: logging a
    session, for this or another topic and with any score, leaves the
    difficulty of a topic with attempts as it was. *)
Theorem session_does_not_move_difficulty (f : file) (topic ts topic' : string)
  (score details : json) :
  for_topic topic (attempts_of f) <> [] ->
  fst (get_adaptive_difficulty float_of_str topic
         (snd (log_session ts topic' score details f)))
  = fst (get_adaptive_difficulty float_of_str topic f).
Proof.
  intros Hne.
  destruct (log_session ts topic' score details f) as [[[]|e] f'] eqn:Erun.
  2:{ pose proof (log_session_effect f ts topic' score details) as [_ H].
      rewrite Erun in H. simpl. subst f'. reflexivity. }
  simpl snd. revert Erun. unfold log_session, bindM, lift.
  destruct f as [| |data]; simpl; try discriminate.
  destruct (session_update data ts topic' score details) as [d'|] eqn:Eu;
    [|discriminate].
  destruct (session_update_frame _ _ _ _ _ _ Eu) as (m & m' & -> & -> & Hk).
  simpl. intros H. inversion H; subst f'; clear H.
  rewrite !adaptive_difficulty_fst.
  unfold get_topic_accuracy, bindM, lift. simpl.
  assert (Hent : entries_for_topic (JObj m') "attempts" topic
                 = entries_for_topic (JObj m) "attempts" topic).
  { unfold entries_for_topic. simpl py_get. unfold dict_get_default.
    rewrite Hk by discriminate. reflexivity. }
  unfold topic_accuracy_of. rewrite Hent.
  destruct (entries_for_topic (JObj m) "attempts" topic) as [A|] eqn:EA;
    [|reflexivity].
  apply entries_for_topic_attempts in EA. rewrite <- EA in Hne.
  destruct A as [|a A]; [congruence|]. reflexivity.
Qed.

End Accuracy.

Lemma topic_accuracy_bounded_witness :
  exists acc,
    fst (get_topic_accuracy example_float_of_str "Thermo" (7 # 10) two_topics) = Ok acc /\
    (acc == 1 # 2)%Q /\ (0 <= acc)%Q /\ (acc <= 1)%Q.
Proof.
  destruct (fst (get_topic_accuracy example_float_of_str "Thermo" (7 # 10) two_topics))
    as [acc|e] eqn:E.
  - exists acc. split; [reflexivity|].
    destruct (topic_accuracy_bounded example_float_of_str two_topics "Thermo"
                (7 # 10) acc E) as (Hacc & H0 & H1).
    + vm_compute. discriminate.
    + split; [|split; assumption]. rewrite Hacc. vm_compute. reflexivity.
  - vm_compute in E. discriminate E.
Defined.

Lemma adaptive_difficulty_monotone_witness :
  exists l1 l2,
    fst (get_adaptive_difficulty example_float_of_str "Thermo" two_topics) = Ok l1 /\
    fst (get_adaptive_difficulty example_float_of_str "Optics" two_topics) = Ok l2 /\
    is_label l1 /\ is_label l2 /\
    (difficulty_rank l1 <= difficulty_rank l2)%nat.
Proof.
  apply (adaptive_difficulty_monotone example_float_of_str two_topics two_topics
           "Thermo" "Optics" (1 # 2) (1 # 1)).
  - vm_compute. reflexivity.
  - vm_compute. reflexivity.
  - vm_compute. discriminate.
Defined.

Lemma session_does_not_move_difficulty_witness :
  fst (get_adaptive_difficulty example_float_of_str "Thermo"
         (snd (log_session "2024-06-01T00:00:00Z" "Thermo" (JInt 100) (JObj [])
                 two_topics)))
  = fst (get_adaptive_difficulty example_float_of_str "Thermo" two_topics).
Proof.
  apply (session_does_not_move_difficulty example_float_of_str two_topics "Thermo").
  vm_compute. discriminate.
Defined.

(** ** More on frequently missed questions *)

Lemma count_if_split (P Q : json -> bool) (l : list json) :
  (count_if (fun a => P a && Q a) l + count_if (fun a => P a && negb (Q a)) l
   = count_if P l)%Z.
Proof.
  unfold count_if. induction l as [|a l IH]; [reflexivity|].
  cbn [filter]. destruct (P a); destruct (Q a);
    cbn [andb negb List.length]; rewrite ?Nat2Z.inj_succ; lia.
Qed.

(** X14. In every record [get_frequently_missed] returns, the correct
    and the incorrect attempts add up to the attempts, at least one
    attempt is incorrect, and the error rate lies above 0 and at most
    at 1. *)
Theorem frequently_missed_counts (f : file) (topic : string)
  (min_attempts limit : Z) (items : list missed) :
  fst (get_frequently_missed topic min_attempts limit f) = Ok items ->
  Forall (fun r =>
            (correct r + incorrect r = attempts r)%Z /\
            (0 <= correct r)%Z /\
            (0 < incorrect r <= attempts r)%Z /\
            (0 < error_rate r)%Q /\ (error_rate r <= 1)%Q) items.
Proof.
  intros Hrun.
  destruct (frequently_missed_result f topic min_attempts limit items Hrun)
    as (ranked & -> & _ & Hall).
  apply slice_to_Forall. eapply Forall_impl; [|exact Hall].
  intros r (Hnz & _ & (k & Ha & Hc & Hi) & Hpos & Her).
  set (A := for_topic topic (attempts_of f)) in *.
  pose proof (count_if_split (same_question k) is_correct A) as Hsplit.
  pose proof (count_if_nonneg (fun a => same_question k a && is_correct a) A) as H0.
  pose proof (count_if_nonneg
                (fun a => same_question k a && negb (is_correct a)) A) as H1.
  cbv beta in *.
  assert (Hrange : (0 < incorrect r <= attempts r)%Z) by lia.
  split; [lia|]. split; [lia|]. split; [exact Hrange|].
  rewrite Her.
  assert (Hn : (0 < inject_Z (attempts r))%Q)
    by (change 0%Q with (inject_Z 0); rewrite <- Zlt_Qlt; lia).
  split.
  - apply Qlt_shift_div_l; [exact Hn|]. rewrite Qmult_0_l.
    change 0%Q with (inject_Z 0). rewrite <- Zlt_Qlt. lia.
  - apply Qle_shift_div_r; [exact Hn|]. rewrite Qmult_1_l.
    rewrite <- Zle_Qle. lia.
Qed.

Lemma count_if_none (P : json -> bool) (l : list json) :
  (forall a, In a l -> P a = false) -> count_if P l = 0%Z.
Proof.
  intros H. unfold count_if.
  replace (filter P l) with (@nil json); [reflexivity|].
  symmetry. induction l as [|a l IH]; [reflexivity|].
  simpl. rewrite (H a) by (left; reflexivity). apply IH.
  intros; apply H; right; assumption.
Qed.

(** X15. [get_frequently_missed] reports nothing for a limit of 0, and
    nothing for a topic all of whose attempts are correct, however many
    they are. *)
Theorem frequently_missed_nothing (f : file) (topic : string)
  (min_attempts limit : Z) (items : list missed) :
  fst (get_frequently_missed topic min_attempts limit f) = Ok items ->
  limit = 0%Z \/ (forall a, In a (for_topic topic (attempts_of f)) -> is_correct a = true) ->
  items = [].
Proof.
  intros Hrun Hcase.
  destruct (frequently_missed_result f topic min_attempts limit items Hrun)
    as (ranked & -> & _ & Hall).
  destruct Hcase as [->|Hcorrect]; [reflexivity|].
  destruct ranked as [|r ranked]; [unfold slice_to; destruct (0 <=? limit)%Z;
                                   apply firstn_nil|].
  exfalso. inversion Hall as [|? ? Hr _]; subst.
  destruct Hr as (Hnz & _ & (k & _ & _ & Hi) & _).
  apply Hnz. rewrite Hi. apply count_if_none.
  intros a Ha. rewrite (Hcorrect a Ha). simpl. apply andb_false_r.
Qed.

(** X16. A shorter ranking is the beginning of a longer one: for limits
    [0 <= n <= m], the records returned for [n] are the first [n] of the
    records returned for [m], and the two calls raise together. *)
Theorem frequently_missed_prefix (f : file) (topic : string)
  (min_attempts n m : Z) :
  (0 <= n <= m)%Z ->
  fst (get_frequently_missed topic min_attempts n f) =
  match fst (get_frequently_missed topic min_attempts m f) with
  | Ok items => Ok (firstn (Z.to_nat n) items)
  | Raise e => Raise e
  end.
Proof.
  intros [Hn Hnm].
  unfold get_frequently_missed, bindM, lift.
  destruct (_read f) as [[data|e] f']; simpl; [|reflexivity].
  unfold frequently_missed_of.
  destruct (entries_for_topic data "attempts" topic) as [A|]; simpl; [|reflexivity].
  destruct A as [|a A]; [rewrite firstn_nil; reflexivity|].
  destruct (collect_stats (a :: A) []) as [stats|]; simpl; [|reflexivity].
  f_equal. unfold slice_to.
  destruct (Z.leb_spec 0 n); [|lia]. destruct (Z.leb_spec 0 m); [|lia].
  rewrite firstn_firstn. f_equal. lia.
Qed.

Lemma frequently_missed_counts_witness :
  Forall (fun r =>
            (correct r + incorrect r = attempts r)%Z /\
            (0 <= correct r)%Z /\
            (0 < incorrect r <= attempts r)%Z /\
            (0 < error_rate r)%Q /\ (error_rate r <= 1)%Q)
    match fst (get_frequently_missed "Thermo" 1 5 three_questions) with
    | Ok items => items
    | Raise _ => []
    end.
Proof.
  destruct (fst (get_frequently_missed "Thermo" 1 5 three_questions))
    as [items|e] eqn:E; [|constructor].
  apply (frequently_missed_counts three_questions "Thermo" 1 5 items). exact E.
Defined.

Lemma frequently_missed_nothing_witness :
  fst (get_frequently_missed "Optics" 1 5 two_topics) = Ok [].
Proof.
  destruct (fst (get_frequently_missed "Optics" 1 5 two_topics)) as [items|e] eqn:E.
  - f_equal.
    apply (frequently_missed_nothing two_topics "Optics" 1 5 items E).
    right. vm_compute. intros a [<-|[]]. reflexivity.
  - vm_compute in E. discriminate E.
Defined.

Lemma frequently_missed_prefix_witness :
  fst (get_frequently_missed "Thermo" 1 2 three_questions) =
  match fst (get_frequently_missed "Thermo" 1 10 three_questions) with
  | Ok items => Ok (firstn (Z.to_nat 2) items)
  | Raise e => Raise e
  end.
Proof.
  apply (frequently_missed_prefix three_questions "Thermo" 1 2 10). lia.
Defined.

(** ** Topics do not interfere *)

Lemma comprehension_app_skip {A B : Type} (cond : A -> result bool)
  (val : A -> result B) (l : list A) (x : A) :
  cond x = Ok false ->
  comprehension cond val (l ++ [x]) = comprehension cond val l.
Proof.
  intros Hx. induction l as [|a l IH]; simpl.
  - rewrite Hx. reflexivity.
  - destruct (cond a) as [[|]|]; simpl; [|exact IH|reflexivity].
    destruct (val a); simpl; [|reflexivity]. rewrite IH. reflexivity.
Qed.

Section Isolation.

Variable sha256_hexdigest : string -> string.
Variable int_of_str : string -> option Z.
Variable float_of_str : string -> option Q.

Lemma make_attempt_entry_topic (ts topic qid prompt answer : string)
  (correct response_ms : json) (entry : dict) :
  make_attempt_entry int_of_str ts topic qid prompt answer correct response_ms
  = Ok entry ->
  dict_get_default entry "topic" JNull = JStr topic.
Proof.
  unfold make_attempt_entry.
  destruct (py_int int_of_str response_ms) as [ms|];
    destruct response_ms; simpl; intros H; inversion H; reflexivity.
Qed.

Lemma attempt_update_ledger (m : dict) (ts topic prompt answer : string)
  (correct response_ms d' : json) :
  attempt_update sha256_hexdigest int_of_str (JObj m) ts topic prompt answer
    correct response_ms = Ok d' ->
  dict_get_default m "attempts" (JArr []) = JArr (attempts_of (Stored (JObj m))).
Proof.
  unfold attempt_update. simpl as_dict. simpl bind.
  destruct (make_attempt_entry int_of_str ts topic _ prompt answer correct response_ms)
    as [entry|]; [simpl bind|discriminate].
  unfold list_at. lookup. rewrite attempts_of_dict. unfold dict_get_default.
  destruct (dict_get m "attempts") as [[]|]; simpl; try discriminate; reflexivity.
Qed.

(** The entries of a topic are not touched by an attempt on another
    topic. *)
Lemma entries_other_topic (f f' : file) (m m' : dict)
  (ts topic' prompt answer : string) (correct response_ms : json)
  (k topic : string) :
  f = Stored (JObj m) -> f' = Stored (JObj m') ->
  log_attempt sha256_hexdigest int_of_str ts topic' prompt answer
    correct response_ms f = (Ok tt, f') ->
  topic' <> topic ->
  k = "attempts" \/ k = "sessions" ->
  entries_for_topic (JObj m') k topic = entries_for_topic (JObj m) k topic.
Proof.
  intros -> -> Hrun Hne Hk.
  destruct (log_attempt_frame_keys sha256_hexdigest int_of_str _ _ _ _ _ _ _ _ Hrun)
    as [_ Hframe].
  revert Hrun. unfold log_attempt, bindM, lift. simpl.
  destruct (attempt_update sha256_hexdigest int_of_str (JObj m) ts topic' prompt
              answer correct response_ms) as [d'|] eqn:Eupd; [|discriminate].
  simpl. intros H. inversion H; subst d'; clear H.
  destruct Hk as [->| ->].
  - pose proof (attempt_update_ledger _ _ _ _ _ _ _ _ Eupd) as Hl.
    destruct (attempt_update_frame _ _ _ _ _ _ _ _ _ _ Eupd)
      as (m0 & m1 & entry & E0 & E1 & Hentry & Hatt & _).
    inversion E0; subst m0. inversion E1; subst m1.
    unfold entries_for_topic. simpl py_get. rewrite Hl.
    unfold dict_get_default at 1. rewrite Hatt. simpl py_iter. simpl bind.
    apply comprehension_app_skip.
    simpl. rewrite (make_attempt_entry_topic _ _ _ _ _ _ _ _ Hentry). simpl.
    destruct (String.eqb_spec topic' topic); [contradiction|reflexivity].
  - unfold entries_for_topic. simpl py_get. unfold dict_get_default.
    specialize (Hframe "sessions"). simpl in Hframe.
    rewrite Hframe by discriminate. reflexivity.
Qed.

(** X17. An attempt logged under one topic leaves every other topic's
    accuracy, difficulty and ranking of missed questions as they were. *)
Theorem other_topic_unchanged (f f' : file)
  (ts topic' prompt answer : string) (correct response_ms : json) (topic : string) :
  log_attempt sha256_hexdigest int_of_str ts topic' prompt answer
    correct response_ms f = (Ok tt, f') ->
  topic' <> topic ->
  (forall default,
     fst (get_topic_accuracy float_of_str topic default f')
     = fst (get_topic_accuracy float_of_str topic default f)) /\
  fst (get_adaptive_difficulty float_of_str topic f')
  = fst (get_adaptive_difficulty float_of_str topic f) /\
  (forall min_attempts limit,
     fst (get_frequently_missed topic min_attempts limit f')
     = fst (get_frequently_missed topic min_attempts limit f)).
Proof.
  intros Hrun Hne.
  assert (Hshape : exists m m', f = Stored (JObj m) /\ f' = Stored (JObj m')).
  { revert Hrun. unfold log_attempt, bindM, lift.
    destruct f as [| |data]; simpl; try discriminate.
    destruct (attempt_update sha256_hexdigest int_of_str data ts topic' prompt
                answer correct response_ms) as [d'|] eqn:Eupd; [|discriminate].
    destruct (attempt_update_frame _ _ _ _ _ _ _ _ _ _ Eupd)
      as (m & m' & entry & -> & -> & _).
    simpl. intros H. inversion H. eexists. eexists. split; reflexivity. }
  destruct Hshape as (m & m' & Hf & Hf').
  pose proof (entries_other_topic f f' m m' ts topic' prompt answer correct
                response_ms "attempts" topic Hf Hf' Hrun Hne (or_introl eq_refl)) as Ha.
  pose proof (entries_other_topic f f' m m' ts topic' prompt answer correct
                response_ms "sessions" topic Hf Hf' Hrun Hne (or_intror eq_refl)) as Hs.
  subst f f'.
  assert (Hacc : forall default,
    fst (get_topic_accuracy float_of_str topic default (Stored (JObj m')))
    = fst (get_topic_accuracy float_of_str topic default (Stored (JObj m)))).
  { intros default. unfold get_topic_accuracy, bindM, lift. simpl.
    unfold topic_accuracy_of. rewrite Ha, Hs. reflexivity. }
  split; [exact Hacc|]. split.
  - rewrite !adaptive_difficulty_fst, Hacc. reflexivity.
  - intros min_attempts limit. unfold get_frequently_missed, bindM, lift. simpl.
    unfold frequently_missed_of. rewrite Ha. reflexivity.
Qed.

End Isolation.

Lemma optics_attempt_returns :
  optics_attempt two_topics = (Ok tt, snd (optics_attempt two_topics)).
Proof. vm_compute. reflexivity. Qed.

Lemma other_topic_unchanged_witness :
  (forall default,
     fst (get_topic_accuracy example_float_of_str "Thermo" default
            (snd (optics_attempt two_topics)))
     = fst (get_topic_accuracy example_float_of_str "Thermo" default two_topics)) /\
  fst (get_adaptive_difficulty example_float_of_str "Thermo"
         (snd (optics_attempt two_topics)))
  = fst (get_adaptive_difficulty example_float_of_str "Thermo" two_topics) /\
  (forall min_attempts limit,
     fst (get_frequently_missed "Thermo" min_attempts limit
            (snd (optics_attempt two_topics)))
     = fst (get_frequently_missed "Thermo" min_attempts limit two_topics)).
Proof.
  apply (other_topic_unchanged example_digest example_int_of_str
           example_float_of_str two_topics (snd (optics_attempt two_topics))
           "2024-05-03T08:00:00Z" "Optics" "What is a lens?" "glass"
           (JBool false) (JInt 3000) "Thermo").
  - exact optics_attempt_returns.
  - discriminate.
Defined.

(** ** Normalized prompts are fixed points *)

Lemma lower_char_facts (c : ascii) :
  isspace (lower_char c) = isspace c /\ lower_char (lower_char c) = lower_char c.
Proof.
  destruct c as [[] [] [] [] [] [] [] []]; vm_compute; split; reflexivity.
Qed.

Lemma lower_idempotent (s : string) : lower (lower s) = lower s.
Proof.
  induction s as [|c s IH]; simpl; [reflexivity|].
  rewrite IH, (proj2 (lower_char_facts c)). reflexivity.
Qed.

Lemma lower_is_word (w : string) : is_word (lower w) = is_word w.
Proof.
  assert (H : forall s, no_space (lower s) = no_space s).
  { induction s as [|c s IH]; simpl; [reflexivity|].
    rewrite IH, (proj1 (lower_char_facts c)). reflexivity. }
  destruct w as [|c w]; [reflexivity|].
  change (is_word (lower (String c w))) with (no_space (lower (String c w))).
  apply H.
Qed.

Lemma is_word_cons (c : ascii) (w : string) :
  is_word (String c w) = negb (isspace c) && no_space w.
Proof. reflexivity. Qed.

Lemma is_word_no_space (w : string) : is_word w = true -> no_space w = true.
Proof. destruct w; [discriminate|auto]. Qed.

Lemma split_words (s : string) : Forall (fun w => is_word w = true) (split s).
Proof.
  induction s as [|c s IH]; [constructor|].
  rewrite split_cons. destruct (isspace c) eqn:Ec; [exact IH|].
  destruct (starts_word s).
  - destruct (split s) as [|w ws]; constructor; try constructor.
    + rewrite is_word_cons, Ec. reflexivity.
    + inversion IH; subst. rewrite is_word_cons, Ec. simpl.
      apply is_word_no_space. assumption.
    + inversion IH; assumption.
  - constructor; [|exact IH]. rewrite is_word_cons, Ec. reflexivity.
Qed.

Lemma no_space_starts_word (w : string) :
  is_word w = true -> starts_word w = true.
Proof.
  destruct w as [|c w]; [discriminate|].
  rewrite is_word_cons. simpl. intros H. apply andb_prop in H. tauto.
Qed.

(** A word followed by a space and more text is the first word of it. *)
Lemma split_word_space (w r : string) :
  is_word w = true ->
  split (w ++ String " " r)%string = w :: split r.
Proof.
  induction w as [|c w IH]; [discriminate|].
  rewrite is_word_cons. intros H. apply andb_prop in H. destruct H as [Hc Hw].
  apply negb_true_iff in Hc.
  change ((String c w ++ String " " r)%string)
    with (String c (w ++ String " " r)%string).
  rewrite split_cons, Hc.
  destruct w as [|d w].
  - simpl append. simpl starts_word. cbv iota.
    change (isspace " ") with true. simpl negb. cbv iota.
    rewrite split_cons. change (isspace " ") with true. reflexivity.
  - assert (Hdw : is_word (String d w) = true) by exact Hw.
    rewrite (IH Hdw).
    change ((String d w ++ String " " r)%string)
      with (String d (w ++ String " " r)%string).
    simpl starts_word.
    rewrite is_word_cons in Hdw. apply andb_prop in Hdw. destruct Hdw as [Hd _].
    rewrite Hd. reflexivity.
Qed.

Lemma split_word (w : string) : is_word w = true -> split w = [w].
Proof.
  induction w as [|c w IH]; [discriminate|].
  rewrite is_word_cons. intros H. apply andb_prop in H. destruct H as [Hc Hw].
  apply negb_true_iff in Hc. rewrite split_cons, Hc.
  destruct w as [|d w]; [reflexivity|].
  assert (Hdw : is_word (String d w) = true) by exact Hw.
  rewrite (IH Hdw), (no_space_starts_word _ Hdw). reflexivity.
Qed.

(** Splitting what [join] put together gives the words back. *)
Lemma split_join (ws : list string) :
  Forall (fun w => is_word w = true) ws ->
  split (join " " ws) = ws.
Proof.
  induction ws as [|w ws IH]; intros H; [reflexivity|].
  inversion H as [|? ? Hw Hws]; subst.
  destruct ws as [|w' ws]; [apply split_word; exact Hw|].
  change (join " " (w :: w' :: ws))
    with (w ++ String " " (join " " (w' :: ws)))%string.
  rewrite (split_word_space w _ Hw), (IH Hws). reflexivity.
Qed.

Lemma lower_words_are_words (p : string) :
  Forall (fun w => is_word w = true) (lower_words p).
Proof.
  unfold lower_words. pose proof (split_words p) as H.
  induction H as [|w ws Hw _ IH]; simpl; constructor; [|exact IH].
  rewrite lower_is_word. exact Hw.
Qed.

Section NormalForm.

Variable sha256_hexdigest : string -> string.

(** X18. Normalizing is idempotent: a normalized prompt is its own
    normal form, it is in lower case, its words are the lower-case words
    of the prompt separated by single spaces, and it has the identifier
    of the prompt it came from. *)
Theorem normalize_idempotent (p : string) :
  normalize (normalize p) = normalize p /\
  lower (normalize p) = normalize p /\
  split (normalize p) = map lower (split p) /\
  question_id sha256_hexdigest (normalize p) = question_id sha256_hexdigest p.
Proof.
  assert (Hsplit : split (normalize p) = lower_words p).
  { rewrite normalize_lower_words. apply split_join. apply lower_words_are_words. }
  assert (Hidem : normalize (normalize p) = normalize p).
  { rewrite (normalize_lower_words (normalize p)). unfold lower_words at 1.
    rewrite Hsplit. unfold lower_words. rewrite map_map.
    rewrite (map_ext _ lower lower_idempotent).
    symmetry. apply normalize_lower_words. }
  split; [exact Hidem|]. split.
  - unfold normalize. apply lower_idempotent.
  - split; [exact Hsplit|]. unfold question_id. rewrite Hidem. reflexivity.
Qed.

End NormalForm.

(** * Properties of the replies of the model *)

Lemma find_from_none (c : ascii) (s : string) (i : Z) :
  contains c s = false -> find_from c s i = -1.
Proof.
  revert i; induction s as [|d s IH]; intros i H; simpl in *; [reflexivity|].
  apply orb_false_iff in H as [Hd Hs]. rewrite Hd. apply IH, Hs.
Qed.

Lemma find_from_app (c : ascii) (pre rest : string) (i : Z) :
  contains c pre = false ->
  find_from c (pre ++ String c rest)%string i = i + Z.of_nat (String.length pre).
Proof.
  revert i; induction pre as [|d pre IH]; intros i H; simpl in *.
  - rewrite Ascii.eqb_refl. lia.
  - apply orb_false_iff in H as [Hd Hs]. rewrite Hd, IH by exact Hs. lia.
Qed.

Lemma rfind_from_none (c : ascii) (s : string) (i last : Z) :
  contains c s = false -> rfind_from c s i last = last.
Proof.
  revert i last; induction s as [|d s IH]; intros i last H; simpl in *;
    [reflexivity|].
  apply orb_false_iff in H as [Hd Hs]. rewrite Hd. apply IH, Hs.
Qed.

Lemma rfind_from_app (c : ascii) (a post : string) (i last : Z) :
  contains c post = false ->
  rfind_from c (a ++ String c post)%string i last = i + Z.of_nat (String.length a).
Proof.
  revert i last; induction a as [|d a IH]; intros i last H; simpl.
  - rewrite Ascii.eqb_refl, rfind_from_none by exact H. lia.
  - rewrite IH by exact H. lia.
Qed.

Lemma rfind_from_bound (c : ascii) (s : string) (i last : Z) :
  last < i -> rfind_from c s i last < i + Z.of_nat (String.length s).
Proof.
  revert i last; induction s as [|d s IH]; intros i last H; simpl String.length;
    cbn [rfind_from]; [lia|].
  specialize (IH (i + 1) (if Ascii.eqb d c then i else last)).
  destruct (Ascii.eqb d c); lia.
Qed.

Lemma rfind_from_app_none (c : ascii) (a b : string) (i last : Z) :
  contains c b = false ->
  rfind_from c (a ++ b)%string i last = rfind_from c a i last.
Proof.
  revert i last; induction a as [|d a IH]; intros i last H; simpl.
  - apply rfind_from_none, H.
  - apply IH, H.
Qed.

Lemma after_split (c : ascii) (s rest : string) :
  after c s = Some rest ->
  exists pre, s = (pre ++ String c rest)%string /\ contains c pre = false.
Proof.
  revert rest; induction s as [|d s IH]; intros rest H; simpl in H;
    [discriminate H|].
  destruct (Ascii.eqb d c) eqn:E.
  - apply Ascii.eqb_eq in E. subst d. injection H as <-.
    exists EmptyString. split; reflexivity.
  - destruct (IH _ H) as (pre & -> & Hp).
    exists (String d pre). split; [reflexivity|]. simpl. rewrite E. exact Hp.
Qed.

Lemma after_none (c : ascii) (s : string) :
  after c s = None -> contains c s = false.
Proof.
  induction s as [|d s IH]; intros H; simpl in *; [reflexivity|].
  destruct (Ascii.eqb d c); [discriminate H|]. apply IH, H.
Qed.

Lemma substring_app_skip (pre s : string) (n : nat) :
  substring (String.length pre) n (pre ++ s)%string = substring 0 n s.
Proof. induction pre as [|d pre IH]; simpl; [reflexivity | exact IH]. Qed.

Lemma substring_prefix (b post : string) :
  substring 0 (String.length b) (b ++ post)%string = b.
Proof.
  induction b as [|d b IH]; simpl.
  - destruct post; reflexivity.
  - rewrite IH. reflexivity.
Qed.

Lemma length_append (a b : string) :
  String.length (a ++ b)%string = (String.length a + String.length b)%nat.
Proof. induction a as [|d a IH]; simpl; [reflexivity | rewrite IH; reflexivity]. Qed.

Lemma append_assoc (a b c : string) :
  ((a ++ b) ++ c)%string = (a ++ (b ++ c))%string.
Proof. induction a as [|d a IH]; simpl; [reflexivity | rewrite IH; reflexivity]. Qed.

(** The positions of the outer braces of [pre { mid } post]. *)
Lemma outer_braces (pre mid post : string) :
  contains "{" pre = false ->
  contains "}" post = false ->
  let payload := (pre ++ String "{" (mid ++ String "}" post))%string in
  find "{" payload = Z.of_nat (String.length pre) /\
  rfind "}" payload = Z.of_nat (String.length pre) + 1 + Z.of_nat (String.length mid) /\
  slice payload (find "{" payload) (rfind "}" payload + 1)
  = String "{" (mid ++ String "}" EmptyString)%string.
Proof.
  intros Hpre Hpost payload.
  assert (Hf : find "{" payload = Z.of_nat (String.length pre)).
  { unfold find, payload. rewrite find_from_app by exact Hpre. lia. }
  assert (Hr : rfind "}" payload
               = Z.of_nat (String.length pre) + 1 + Z.of_nat (String.length mid)).
  { unfold rfind, payload.
    change (pre ++ String "{" (mid ++ String "}" post))%string
      with (pre ++ (String "{" mid ++ String "}" post))%string.
    rewrite <- append_assoc, rfind_from_app by exact Hpost.
    rewrite length_append. simpl String.length. lia. }
  split; [exact Hf|]. split; [exact Hr|].
  rewrite Hf, Hr. unfold slice, payload.
  rewrite Nat2Z.id.
  replace (Z.to_nat (Z.of_nat (String.length pre) + 1 + Z.of_nat (String.length mid) + 1
                     - Z.of_nat (String.length pre)))
    with (String.length (String "{" (mid ++ String "}" EmptyString))).
  2:{ simpl String.length. rewrite length_append. simpl String.length. lia. }
  rewrite substring_app_skip.
  change (String "{" (mid ++ String "}" post))%string
    with (String "{" (mid ++ (String "}" EmptyString ++ post)))%string.
  rewrite <- append_assoc.
  change (String "{" ((mid ++ String "}" EmptyString) ++ post))%string
    with (String "{" (mid ++ String "}" EmptyString) ++ post)%string.
  apply substring_prefix.
Qed.

(** X20. When the reply as a whole does not parse, [_safe_json_loads]
    parses what lies between the first opening brace and the last closing
    brace, both included: for a reply [pre { mid } post] whose [pre] holds
    no opening brace and whose [post] holds no closing brace, the result
    is that of [json.loads] on [{ mid }], its value or its
    [JSONDecodeError]. *)
Theorem safe_json_loads_recovers (json_loads : string -> option json)
  (pre mid post : string) :
  contains "{" pre = false ->
  contains "}" post = false ->
  json_loads (pre ++ String "{" (mid ++ String "}" post))%string = None ->
  _safe_json_loads json_loads (pre ++ String "{" (mid ++ String "}" post))%string
  = match json_loads (String "{" (mid ++ String "}" EmptyString))%string with
    | Some v => Ok v
    | None => Raise JSONDecodeError
    end.
Proof.
  intros Hpre Hpost Hnone.
  destruct (outer_braces pre mid post Hpre Hpost) as (Hf & Hr & Hs).
  cbv zeta in Hf, Hr, Hs.
  unfold _safe_json_loads. rewrite Hnone. cbv zeta. rewrite Hs, Hf, Hr.
  replace ((0 <=? Z.of_nat (String.length pre))
           && (Z.of_nat (String.length pre)
               <? Z.of_nat (String.length pre) + 1 + Z.of_nat (String.length mid)))
    with true; [reflexivity|].
  symmetry. apply andb_true_iff. split; [apply Z.leb_le | apply Z.ltb_lt]; lia.
Qed.

Lemma safe_json_loads_recovers_witness :
  _safe_json_loads example_loads "Here you are: {} I hope it helps."
  = Ok (JObj []).
Proof.
  apply (safe_json_loads_recovers example_loads "Here you are: " "" " I hope it helps.");
    reflexivity.
Defined.

(** X21. A reply that does not parse and holds no opening brace with a
    closing brace somewhere after it makes [_safe_json_loads] raise
    [JSONDecodeError]: no second parse is attempted on a reply without
    braces, with one kind of brace only, or whose closing braces all come
    before the first opening one. *)
Theorem safe_json_loads_gives_up (json_loads : string -> option json)
  (payload : string) :
  json_loads payload = None ->
  brace_pair payload = false ->
  _safe_json_loads json_loads payload = Raise JSONDecodeError.
Proof.
  intros Hnone Hpair. unfold _safe_json_loads. rewrite Hnone. cbv zeta.
  replace ((0 <=? find "{" payload) && (find "{" payload <? rfind "}" payload))
    with false; [reflexivity|].
  symmetry. unfold brace_pair in Hpair.
  destruct (after "{" payload) as [rest|] eqn:Ea.
  - destruct (after_split _ _ _ Ea) as (pre & -> & Hp).
    apply andb_false_iff. right. apply Z.ltb_ge.
    unfold find, rfind. rewrite find_from_app by exact Hp.
    rewrite rfind_from_app_none.
    + pose proof (rfind_from_bound "}" pre 0 (-1)). lia.
    + simpl. exact Hpair.
  - apply after_none in Ea. unfold find. rewrite find_from_none by exact Ea.
    reflexivity.
Qed.

Lemma safe_json_loads_gives_up_witness :
  _safe_json_loads example_loads "} no object here {" = Raise JSONDecodeError.
Proof.
  apply (safe_json_loads_gives_up example_loads "} no object here {"); reflexivity.
Defined.

Lemma validate_grade_schema_fields (v v' : json) :
  _validate_grade_schema v = Ok v' ->
  v' = v /\
  exists m b s, v = JObj m /\ dict_get m "correct" = Some (JBool b) /\
                dict_get m "feedback" = Some (JStr s).
Proof.
  unfold _validate_grade_schema, missing_or_not.
  destruct v as [| | | | | |m]; try discriminate.
  destruct (dict_get m "correct") as [[|b| | | | |]|] eqn:Ec; try discriminate.
  destruct (dict_get m "feedback") as [[| | | |s| |]|] eqn:Ef; try discriminate.
  cbn. intros H. injection H as <-. split; [reflexivity|].
  exists m, b, s. repeat split; assumption.
Qed.

Lemma grade_reply_fields (json_loads : string -> option json) (content : string) :
  exists m b s,
    grade_reply json_loads content = JObj m /\
    dict_get m "correct" = Some (JBool b) /\
    dict_get m "feedback" = Some (JStr s) /\
    _validate_grade_schema (JObj m) = Ok (JObj m) /\
    (b = true -> _safe_json_loads json_loads content = Ok (JObj m)).
Proof.
  unfold grade_reply.
  destruct (_safe_json_loads json_loads content) as [v|e] eqn:Ep; cbn [bind].
  - destruct (_validate_grade_schema v) as [v'|e] eqn:Ev.
    + destruct (validate_grade_schema_fields _ _ Ev) as (-> & m & b & s & -> & Hc & Hf).
      exists m, b, s. repeat split; auto.
    + exists [("correct", JBool false);
              ("feedback", JStr "Could not parse grading response as JSON.")],
        false, "Could not parse grading response as JSON."%string.
      repeat split; try reflexivity. discriminate.
  - exists [("correct", JBool false);
            ("feedback", JStr "Could not parse grading response as JSON.")],
      false, "Could not parse grading response as JSON."%string.
    repeat split; try reflexivity. discriminate.
Qed.

(** X19. Whatever the model replies and whatever [json.loads] makes of
    it, [grade_answer] hands back a dictionary with a boolean "correct"
    and a string "feedback", one that passes [_validate_grade_schema]
    itself.  The grade is "correct" only when the reply parsed to that
    very dictionary: a reply that fails to parse or to validate is never
    counted as a correct answer. *)
Theorem grade_reply_schema (json_loads : string -> option json) (content : string) :
  exists m b s,
    grade_reply json_loads content = JObj m /\
    dict_get m "correct" = Some (JBool b) /\
    dict_get m "feedback" = Some (JStr s) /\
    _validate_grade_schema (JObj m) = Ok (JObj m) /\
    (b = true -> _safe_json_loads json_loads content = Ok (JObj m)).
Proof. apply grade_reply_fields. Qed.

Lemma validate_question_ok (q : json) :
  validate_question q = Ok tt -> question_ok q.
Proof.
  unfold validate_question, is_quiz_type, blank_or_not_str, dict_get_default.
  destruct q as [| | | | | |m]; try discriminate.
  destruct (dict_get m "type") as [ty|] eqn:Et; [|cbn; discriminate].
  destruct ty as [| | | |ty| |]; try (cbn; discriminate).
  cbn [py_eq_str].
  destruct (String.eqb ty "mcq" || String.eqb ty "short") eqn:Ety;
    cbn [negb]; [|discriminate].
  destruct (dict_get m "prompt") as [[| | | |prompt| |]|] eqn:Ep; try discriminate.
  destruct (String.eqb (strip prompt) "") eqn:Esp; [discriminate|].
  destruct (dict_get m "answer") as [[| | | |answer| |]|] eqn:Ea;
    try (destruct (_ && _); discriminate).
  destruct (String.eqb (strip answer) "") eqn:Esa;
    [destruct (_ && _); discriminate|].
  intros H.
  exists m, ty, prompt, answer.
  split; [reflexivity|]. split; [exact Et|].
  split.
  { apply orb_true_iff in Ety as [E|E]; apply String.eqb_eq in E; auto. }
  split; [exact Ep|]. split; [apply String.eqb_neq, Esp|].
  split; [exact Ea|]. split; [apply String.eqb_neq, Esa|].
  intros ->. rewrite String.eqb_refl in H. cbn [andb] in H.
  destruct (dict_get m "options") as [[| | | | |opts|]|]; try discriminate H.
  exists opts. split; [reflexivity|].
  destruct (Nat.eqb (List.length opts) 4) eqn:En; [|discriminate H].
  apply Nat.eqb_eq, En.
Qed.

Lemma validate_questions_ok (qs : list json) :
  validate_questions qs = Ok tt -> Forall question_ok qs.
Proof.
  induction qs as [|q qs IH]; intros H; [constructor|].
  cbn [validate_questions] in H.
  destruct (validate_question q) as [[]|e] eqn:Eq; [|discriminate H].
  constructor; [apply validate_question_ok, Eq | apply IH, H].
Qed.

Lemma validate_quiz_schema_questions (v v' : json) :
  _validate_quiz_schema v = Ok v' ->
  v' = v /\
  exists m qs, v = JObj m /\ dict_get m "questions" = Some (JArr qs) /\
               Forall question_ok qs.
Proof.
  unfold _validate_quiz_schema.
  destruct v as [| | | | | |m]; try discriminate.
  destruct (dict_get m "questions") as [[| | | | |qs|]|] eqn:Eq; try discriminate.
  destruct (validate_questions qs) as [[]|e] eqn:Ev; [|discriminate].
  cbn. intros H. injection H as <-. split; [reflexivity|].
  exists m, qs. repeat split; auto. apply validate_questions_ok, Ev.
Qed.

(** X22. Whatever the model replies, the questions the callers take
    from the result of [generate_quiz] form a list in which every
    question is a dictionary with a type "mcq" or "short", a "prompt" and
    an "answer" that are strings with a character other than white space,
    and, for "mcq", a list of exactly four "options": the lookups
    [q['prompt']] and [q['answer']] of the quiz loops cannot fail.  The
    result passes [_validate_quiz_schema] itself, and the list is non-empty
    only when the reply parsed to the dictionary that is returned. *)
Theorem quiz_reply_schema (json_loads : string -> option json) (content : string) :
  exists qs,
    questions_of_quiz (quiz_reply json_loads content) = JArr qs /\
    Forall question_ok qs /\
    _validate_quiz_schema (quiz_reply json_loads content)
    = Ok (quiz_reply json_loads content) /\
    (qs <> [] ->
     _safe_json_loads json_loads content = Ok (quiz_reply json_loads content)).
Proof.
  unfold quiz_reply.
  destruct (_safe_json_loads json_loads content) as [v|e] eqn:Ep; cbn [bind].
  - destruct (_validate_quiz_schema v) as [v'|e] eqn:Ev.
    + destruct (validate_quiz_schema_questions _ _ Ev) as (-> & m & qs & -> & Hq & Hok).
      exists qs. unfold questions_of_quiz, dict_get_default. rewrite Hq.
      repeat split; auto.
    + exists []. repeat split; try reflexivity; try constructor. congruence.
  - exists []. repeat split; try reflexivity; try constructor. congruence.
Qed.

(** * Properties of the quiz loops *)




Section Loops.

Variable sha256_hexdigest : string -> string.
Variable int_of_str : string -> option Z.
Variable json_loads : string -> option json.






End Loops.



Section FirstQuiz.

Variable sha256_hexdigest : string -> string.
Variable int_of_str : string -> option Z.
Variable float_of_str : string -> option Q.
Variable json_loads : string -> option json.







End FirstQuiz.


(** One answer of three graded correct: a score of a third, "Needs
    revision", and an easy quiz next. *)
Example first_quiz_one_of_three :
  fst (quiz_loop example_digest example_int_of_str example_loads "Thermo"
         example_turns 0 empty_store) = Ok 1 /\
  summary (percent 1 3) = NeedsRevision /\
  fst (get_adaptive_difficulty example_float_of_str "Thermo"
         (snd (quiz_loop example_digest example_int_of_str example_loads "Thermo"
                 example_turns 0 empty_store))) = Ok "easy".
Proof. repeat split; vm_compute; reflexivity. Qed.

(** ** The prompts to avoid *)

Lemma avoidance_shown (l : list string) :
  l <> [] ->
  avoidance_instructions (Some l)
  = (nl ++ "Do NOT repeat any of the following previously asked prompts. "
        ++ "If a prompt is similar, create a clearly different question." ++ nl
        ++ "Avoid these prompts:" ++ nl
        ++ join nl (map (fun p => "- " ++ p) (firstn 50 l)) ++ nl)%string.
Proof. destruct l; [congruence | reflexivity]. Qed.

(** X27. Only the first fifty excluded prompts reach the question
    generator: whatever follows them in the list leaves the instructions
    as they are, so a prompt beyond the fiftieth is not named as one to
    avoid. *)
Theorem avoidance_first_50 (l extra : list string) :
  (50 <= List.length l)%nat ->
  avoidance_instructions (Some (l ++ extra)) = avoidance_instructions (Some l).
Proof.
  intros Hlen.
  assert (Hl : l <> []) by (destruct l; [cbn in Hlen; lia | discriminate]).
  assert (Hle : l ++ extra <> []) by (destruct l; [congruence | discriminate]).
  rewrite (avoidance_shown _ Hl), (avoidance_shown _ Hle).
  rewrite firstn_app.
  replace (50 - List.length l)%nat with 0%nat by lia.
  rewrite firstn_O, app_nil_r. reflexivity.
Qed.

Lemma avoidance_first_50_witness :
  avoidance_instructions
    (Some (List.repeat "What is entropy?"%string 50 ++ ["State the second law"%string]))
  = avoidance_instructions (Some (List.repeat "What is entropy?"%string 50)).
Proof.
  apply (avoidance_first_50 (List.repeat "What is entropy?"%string 50)
           ["State the second law"%string]).
  vm_compute. lia.
Defined.

(** ** Instances of the unconditional properties *)


Lemma grade_reply_schema_witness :
  exists m b s,
    grade_reply example_loads correct_reply = JObj m /\
    dict_get m "correct" = Some (JBool b) /\
    dict_get m "feedback" = Some (JStr s) /\
    _validate_grade_schema (JObj m) = Ok (JObj m) /\
    (b = true -> _safe_json_loads example_loads correct_reply = Ok (JObj m)).
Proof. apply (grade_reply_schema example_loads correct_reply). Defined.

Lemma quiz_reply_schema_witness :
  exists qs,
    questions_of_quiz (quiz_reply example_loads "{}") = JArr qs /\
    Forall question_ok qs /\
    _validate_quiz_schema (quiz_reply example_loads "{}")
    = Ok (quiz_reply example_loads "{}") /\
    (qs <> [] ->
     _safe_json_loads example_loads "{}" = Ok (quiz_reply example_loads "{}")).
Proof. apply (quiz_reply_schema example_loads "{}"). Defined.

(** The grade of the example reply is the one the reply states. *)
Example grade_of_correct_reply :
  grade_reply example_loads ("The grade: " ++ correct_reply ++ " Good luck!")%string
  = JObj [("correct", JBool true); ("feedback", JStr "Well done.")] /\
  grade_reply example_loads "{}" = grade_fallback /\
  grade_reply example_loads "no grade" = grade_fallback.
Proof. repeat split; vm_compute; reflexivity. Qed.
